(** * Units of measure: interning, algebra and conversion

    A shallow embedding of [src/hg_oap/units/unit.py]: the unit hierarchy
    ([PrimaryUnit], [DerivedUnit], [OffsetDerivedUnit], [DiffDerivedUnit],
    [ComplexUnit]), the three interning tables of the unit system, the
    operators [*], [/], [**] and the conversion engine.

    Modelling choices, all of them visible in the definitions below:
    - unit objects are frozen dataclasses, so an object is embedded as an
      immutable value that carries the identity it was allocated with
      ([py_id], what Python's [id] returns); [u is w] is equality of
      identities;
    - the unit system is threaded explicitly: a state with the allocation
      log and the three dictionaries, and a state-and-exception monad [M];
    - a [Decimal] is an exact rational ([Qc]): rounding to the context
      precision is not modelled, a float is idealised in the same way, and
      division by zero raises;
    - [Dimension], [Quantity] and the registry of conversion factors live in
      other modules of the package; [Dimension] is a parameter
      ([DimensionAlgebra]). *)

From Stdlib Require Import ZArith QArith Qpower Qcanon String List Lia.
From stdpp Require Import base decidable option list strings numbers pretty.

Open Scope Z_scope.
Set Warnings "-register-all".

(** ** External collaborators *)

(** [hg_oap.units.dimension.Dimension]: a value type with [*], [/], [**]
    and an equality usable for dictionary keys.  Dimensions are interned by
    their module, so [d1 is d2] is modelled by the decidable equality. *)
Class DimensionAlgebra : Type := {
  Dimension : Type;
  Dimension_eq_dec :: EqDecision Dimension;
  dim_mul : Dimension -> Dimension -> Dimension;
  dim_div : Dimension -> Dimension -> Dimension;
  dim_pow : Dimension -> Z -> Dimension;
}.

(** The laws of an abelian group written multiplicatively, with integer
    powers; only the algebra-closure property needs them. *)
Class DimensionLaws (DA : DimensionAlgebra) : Prop := {
  dim_mul_comm : forall a b : Dimension, dim_mul a b = dim_mul b a;
  dim_mul_assoc : forall a b c : Dimension,
    dim_mul a (dim_mul b c) = dim_mul (dim_mul a b) c;
  dim_pow_0_l : forall a b : Dimension, dim_mul (dim_pow a 0) b = b;
  dim_pow_1 : forall a : Dimension, dim_pow a 1 = a;
  dim_pow_add : forall (a : Dimension) (m n : Z),
    dim_pow a (m + n) = dim_mul (dim_pow a m) (dim_pow a n);
}.

(** A concrete dimension algebra for the examples: exponents of two base
    dimensions. *)
Definition exponent_dims : DimensionAlgebra := {|
  Dimension := Z * Z;
  dim_mul := fun a b => (a.1 + b.1, a.2 + b.2);
  dim_div := fun a b => (a.1 - b.1, a.2 - b.2);
  dim_pow := fun a n => (a.1 * n, a.2 * n);
|}.

(** [Decimal.__str__] belongs to the standard library and reads the digits
    a [Decimal] was written with; it is a parameter of the model. *)
Class DecimalStr : Type := Decimal___str__ : Qc -> string.

(** A printer for the examples: numerator, and denominator when it is not
    one. *)
Definition fraction_str : DecimalStr := fun d =>
  if decide (Qden (this d) = 1%positive) then pretty (Qnum (this d))
  else pretty (Qnum (this d)) +:+ "/" +:+ pretty (Z.pos (Qden (this d))).

(** ** Numbers *)

(** [decimal.Decimal], idealised as an exact rational. *)
Abbreviation Decimal := Qc.

Definition Decimal_of_Z (z : Z) : Decimal := Q2Qc (inject_Z z).

(** [int(d)] for a [Decimal] [d]: truncation toward zero. *)
Definition int_of_Decimal (d : Decimal) : Z :=
  Z.quot (Qnum (this d)) (Z.pos (Qden (this d))).

(** [NUMBER = TypeVar('NUMBER', int, float, Decimal)]. *)
Inductive NUMBER : Type :=
| PyInt (z : Z)
| PyFloat (x : Qc)
| PyDecimal (d : Decimal).

Inductive numty : Type := Tint | Tfloat | Tdecimal.

Definition type_of (v : NUMBER) : numty :=
  match v with PyInt _ => Tint | PyFloat _ => Tfloat | PyDecimal _ => Tdecimal end.

Definition num_val (v : NUMBER) : Qc :=
  match v with PyInt z => Decimal_of_Z z | PyFloat x => x | PyDecimal d => d end.

Definition num_make (t : numty) (q : Qc) : NUMBER :=
  match t with
  | Tint => PyInt (int_of_Decimal q)
  | Tfloat => PyFloat q
  | Tdecimal => PyDecimal q
  end.

(** [type(value)(d)]: the coercion every conversion formula applies to a
    ratio or an offset before it meets [value]. *)
Definition cast_like (value : NUMBER) (d : Decimal) : NUMBER :=
  num_make (type_of value) d.

(** ** Exceptions and results *)

(** The exceptions of the module.  The two [ValueError]s carry what their
    message formats: [str] of the units and the dimension quotient.
    [ArithmeticError] stands for [ZeroDivisionError] and for the signals of
    [decimal] ([DivisionByZero], [InvalidOperation]). *)

Inductive pyexn {DA : DimensionAlgebra} : Type :=
| ValueError_cannot_create_diff (from_ : string)
| ValueError_cannot_convert (self_ to_ : string) (quotient : Dimension)
| AssertionError
| TypeError
| AttributeError
| ArithmeticError
| RecursionError.

Inductive result {DA : DimensionAlgebra} (A : Type) : Type :=
| Ok (a : A)
| Raise (e : pyexn).
Arguments Ok {DA A} a.
Arguments Raise {DA A} e.

Definition rbind {DA : DimensionAlgebra} {A B : Type}
  (r : result A) (k : A -> result B) : result B :=
  match r with Ok a => k a | Raise e => Raise e end.

Declare Scope result_scope.
Delimit Scope result_scope with result.
Notation "x <-? c1 ;; c2" := (rbind c1 (fun x => c2))
  (at level 100, c1 at next level, right associativity) : result_scope.

Section Model.
Context {DA : DimensionAlgebra}.

(** The type a binary operation on two numbers computes in; [Decimal] and
    [float] do not mix. *)
Definition join_ty (a b : numty) : result numty :=
  match a, b with
  | Tint, t | t, Tint => Ok t
  | Tfloat, Tfloat => Ok Tfloat
  | Tdecimal, Tdecimal => Ok Tdecimal
  | _, _ => Raise TypeError
  end.

Definition num_add (a b : NUMBER) : result NUMBER :=
  match a, b with
  | PyInt x, PyInt y => Ok (PyInt (x + y))
  | _, _ => (t <-? join_ty (type_of a) (type_of b) ;;
             Ok (num_make t (num_val a + num_val b)%Qc))%result
  end.

Definition num_sub (a b : NUMBER) : result NUMBER :=
  match a, b with
  | PyInt x, PyInt y => Ok (PyInt (x - y))
  | _, _ => (t <-? join_ty (type_of a) (type_of b) ;;
             Ok (num_make t (num_val a - num_val b)%Qc))%result
  end.

Definition num_mul (a b : NUMBER) : result NUMBER :=
  match a, b with
  | PyInt x, PyInt y => Ok (PyInt (x * y))
  | _, _ => (t <-? join_ty (type_of a) (type_of b) ;;
             Ok (num_make t (num_val a * num_val b)%Qc))%result
  end.

(** True division: [int / int] is a float. *)
Definition num_div (a b : NUMBER) : result NUMBER :=
  (t <-? join_ty (type_of a) (type_of b) ;;
   if decide (num_val b = 0%Qc) then Raise ArithmeticError
   else Ok (num_make (match t with Tint => Tfloat | _ => t end)
                     (num_val a / num_val b)%Qc))%result.

(** [Decimal / Decimal]. *)
Definition Decimal_div (a b : Decimal) : result Decimal :=
  if decide (b = 0%Qc) then Raise ArithmeticError else Ok (a / b)%Qc.

(** [x ** m] on rationals, for any integer [m]. *)
Definition Qc_powZ (x : Qc) (m : Z) : Qc := Q2Qc (Qpower (this x) m).

(** [pow(x, m)] for a [Decimal] [x] and an int [m]: [0 ** 0] and a
    negative power of zero raise. *)
Definition Decimal_pow (x : Decimal) (m : Z) : result Decimal :=
  if decide (x = 0%Qc) then
    (if decide (0 < m) then Ok 0%Qc else Raise ArithmeticError)
  else Ok (Qc_powZ x m).

(** ** The unit hierarchy *)

(** A unit object.  [py_id] is the identity the object was allocated with;
    [name] is the instance attribute set by [__new__] when a truthy name is
    passed ([None] when the class default applies); [scale] is set only
    when a [ComplexUnit] is built from a [Quantity].  The [offset_unit] of
    a diff unit is an offset unit, [DiffDerivedUnit.__new__] raises for
    anything else; the attributes that a diff unit reads from it answer
    [AttributeError] for a value of another shape. *)
Inductive Unit : Type :=
| PrimaryUnit (py_id : nat) (name : option string) (dimension : Dimension)
| DerivedUnit (py_id : nat) (name : option string)
    (primary_unit : Unit) (ratio : Decimal)
| OffsetDerivedUnit (py_id : nat) (name : option string)
    (primary_unit : Unit) (ratio offset : Decimal)
| DiffDerivedUnit (py_id : nat) (name : option string) (offset_unit : Unit)
| ComplexUnit (py_id : nat) (name : option string)
    (components : list (Unit * Z)) (scale : option Decimal).

(** [hg_oap.units.quantity.Quantity]: a number paired with a unit. *)
Record Quantity : Type := mkQuantity {
  Quantity_value : Decimal;
  Quantity_unit : Unit;
}.

Definition py_id (u : Unit) : nat :=
  match u with
  | PrimaryUnit i _ _ | DerivedUnit i _ _ _ | OffsetDerivedUnit i _ _ _ _
  | DiffDerivedUnit i _ _ | ComplexUnit i _ _ _ => i
  end.

(** [u is w]. *)
Definition is_ (u w : Unit) : bool := bool_decide (py_id u = py_id w).

(** The instance attribute [name], when [__new__] set one. *)
Definition own_name (u : Unit) : option string :=
  match u with
  | PrimaryUnit _ n _ | DerivedUnit _ n _ _ | OffsetDerivedUnit _ n _ _ _
  | DiffDerivedUnit _ n _ | ComplexUnit _ n _ _ => n
  end.

Inductive pyclass : Type :=
| cPrimaryUnit | cDerivedUnit | cOffsetDerivedUnit | cDiffDerivedUnit
| cComplexUnit.

#[global] Instance pyclass_eq_dec : EqDecision pyclass.
Proof. solve_decision. Defined.

(** [type(u)]. *)
Definition class_of (u : Unit) : pyclass :=
  match u with
  | PrimaryUnit _ _ _ => cPrimaryUnit
  | DerivedUnit _ _ _ _ => cDerivedUnit
  | OffsetDerivedUnit _ _ _ _ _ => cOffsetDerivedUnit
  | DiffDerivedUnit _ _ _ => cDiffDerivedUnit
  | ComplexUnit _ _ _ _ => cComplexUnit
  end.

(** The class variable [_is_multiplicative]: [True] in [Unit], [False] in
    [OffsetDerivedUnit], [True] again in [DiffDerivedUnit]. *)
Definition _is_multiplicative (u : Unit) : bool :=
  match u with OffsetDerivedUnit _ _ _ _ _ => false | _ => true end.

(** [reduce(operator.mul, xs)]: no initial value, so an empty sequence is a
    [TypeError]. *)
Definition reduce_mul {A : Type} (mul : A -> A -> A) (xs : list A) : result A :=
  match xs with
  | [] => Raise TypeError
  | x :: xs' => Ok (fold_left mul xs' x)
  end.

(** [[f(x) for x in xs]] where [f] may raise: the first exception wins. *)
Fixpoint traverse {A B : Type} (f : A -> result B) (xs : list A)
  : result (list B) :=
  match xs with
  | [] => Ok []
  | x :: xs' =>
      (y <-? f x ;; ys <-? traverse f xs' ;; Ok (y :: ys))%result
  end.

(** The attribute [ratio]: the class constant [Decimal(1)] of a primary
    unit, the stored field of a derived or offset unit, the offset unit's
    ratio for a diff unit, and for a complex unit
    [reduce(operator.mul, (pow(u.ratio, m) for u, m in s.components)) * s.scale]. *)
Fixpoint ratio (u : Unit) : result Decimal :=
  match u with
  | PrimaryUnit _ _ _ => Ok 1%Qc
  | DerivedUnit _ _ _ r => Ok r
  | OffsetDerivedUnit _ _ _ r _ => Ok r
  | DiffDerivedUnit _ _ ou =>
      match ou with
      | OffsetDerivedUnit _ _ _ r _ => Ok r
      | _ => Raise AttributeError
      end
  | ComplexUnit _ _ cs sc =>
      (ps <-? (fix go (l : list (Unit * Z)) : result (list Decimal) :=
                 match l with
                 | [] => Ok []
                 | (c, m) :: l' =>
                     (r <-? ratio c ;; p <-? Decimal_pow r m ;;
                      ps <-? go l' ;; Ok (p :: ps))
                 end) cs ;;
       prod <-? reduce_mul Qcmult ps ;;
       Ok (prod * default 1%Qc sc)%Qc)%result
  end.

(** The attribute [dimension]: stored in a primary unit,
    [s.primary_unit.dimension] for the derived classes, and
    [reduce(operator.mul, (u.dimension**m for u, m in s.components))] for a
    complex unit. *)
Fixpoint dimension (u : Unit) : result Dimension :=
  match u with
  | PrimaryUnit _ _ d => Ok d
  | DerivedUnit _ _ p _ => dimension p
  | OffsetDerivedUnit _ _ p _ _ => dimension p
  | DiffDerivedUnit _ _ ou =>
      match ou with
      | OffsetDerivedUnit _ _ p _ _ => dimension p
      | _ => Raise AttributeError
      end
  | ComplexUnit _ _ cs _ =>
      (ds <-? (fix go (l : list (Unit * Z)) : result (list Dimension) :=
                 match l with
                 | [] => Ok []
                 | (c, m) :: l' =>
                     (d <-? dimension c ;; ds <-? go l' ;;
                      Ok (dim_pow d m :: ds))
                 end) cs ;;
       reduce_mul dim_mul ds)%result
  end.

(** ** Names *)

(** [f"{x}"] for an attribute that holds a string or [None]. *)
Definition format_name (n : option string) : string := default "None" n.

(** ['*'.join(parts)]. *)
Definition join_star (parts : list string) : string := String.concat "*" parts.

(** The attribute [name]: the instance attribute when [__new__] set it,
    otherwise the class default: [None] for a primary unit,
    [f"{s.ratio}*{s.primary_unit.name}"] for a derived or offset unit,
    [f"{s.offset_unit.name}_diff"] for a diff unit and [_build_name] for a
    complex unit.  [str(d)] is [d.name] and raises [TypeError] when that is
    [None]. *)
Fixpoint name {DS : DecimalStr} (u : Unit) : result (option string) :=
  match u with
  | PrimaryUnit _ n _ => Ok n
  | DerivedUnit _ n p r | OffsetDerivedUnit _ n p r _ =>
      match n with
      | Some s => Ok (Some s)
      | None =>
          (pn <-? name p ;;
           Ok (Some (Decimal___str__ r +:+ "*" +:+ format_name pn)))%result
      end
  | DiffDerivedUnit _ n ou =>
      match n with
      | Some s => Ok (Some s)
      | None => (on <-? name ou ;; Ok (Some (format_name on +:+ "_diff")))%result
      end
  | ComplexUnit _ n cs sc =>
      match n with
      | Some s => Ok (Some s)
      | None =>
          let scale :=
            if decide (default 1%Qc sc = 1%Qc) then ""
            else Decimal___str__ (default 1%Qc sc) +:+ "*" in
          (ups <-? (fix go (l : list (Unit * Z)) : result (list string) :=
                      match l with
                      | [] => Ok []
                      | (d, p) :: l' =>
                          if decide (0 < p) then
                            (dn <-? name d ;;
                             s <-? match dn with
                                   | Some s => Ok s
                                   | None => Raise TypeError
                                   end ;;
                             rest <-? go l' ;;
                             Ok ((if decide (p = 1) then s
                                  else s +:+ "**" +:+ pretty p) :: rest))
                          else go l'
                      end) cs ;;
           dns <-? (fix go (l : list (Unit * Z)) : result (list string) :=
                      match l with
                      | [] => Ok []
                      | (d, p) :: l' =>
                          if decide (p < 0) then
                            (dn <-? name d ;;
                             s <-? match dn with
                                   | Some s => Ok s
                                   | None => Raise TypeError
                                   end ;;
                             rest <-? go l' ;;
                             Ok ((if decide (p = -1) then s
                                  else s +:+ "**" +:+ pretty (Z.abs p)) :: rest))
                          else go l'
                      end) cs ;;
           let up := if decide (join_star ups = "") then "1" else join_star ups in
           let dn := if decide (join_star dns = "") then ""
                     else "/" +:+ join_star dns in
           Ok (Some (scale +:+ up +:+ dn)))%result
      end
  end.

(** [ComplexUnit._build_name]: the name of a complex unit for which
    [__new__] stored none. *)
Definition _build_name {DS : DecimalStr} (self : Unit) : result (option string) :=
  match self with
  | ComplexUnit i _ cs sc => name (ComplexUnit i None cs sc)
  | _ => Raise AttributeError
  end.

(** [str(u)], that is [Unit.__str__]: the name, which must be a string. *)
Definition Unit___str__ {DS : DecimalStr} (u : Unit) : result string :=
  (n <-? name u ;;
   match n with Some s => Ok s | None => Raise TypeError end)%result.

(** [Unit.__hash__]: [id(self)]. *)
Definition Unit___hash__ (u : Unit) : Z := Z.of_nat (py_id u).

(** ** Dictionaries and their keys *)

(** The values the interning tables use as keys: ints (among them the
    [id] of a unit), decimals, strings, unit objects and tuples of these. *)
Inductive pyval : Type :=
| PInt (z : Z)
| PDecimal (d : Decimal)
| PStr (s : string)
| PUnit (i : nat)
| PTuple (l : list pyval).

(** Equality of keys as a dictionary sees it.  An int and a [Decimal]
    compare by value; a unit object hashes to its [id] ([Unit.__hash__]),
    so it is found only under itself; an int never equals a unit object,
    even the int that is the object's [id]. *)
Fixpoint py_eqb (a b : pyval) : bool :=
  match a, b with
  | PInt x, PInt y => bool_decide (x = y)
  | PInt x, PDecimal d | PDecimal d, PInt x => bool_decide (Decimal_of_Z x = d)
  | PDecimal x, PDecimal y => bool_decide (x = y)
  | PStr s, PStr t => bool_decide (s = t)
  | PUnit i, PUnit j => bool_decide (i = j)
  | PTuple l, PTuple l' =>
      (fix go (l l' : list pyval) : bool :=
         match l, l' with
         | [], [] => true
         | x :: xs, y :: ys => py_eqb x y && go xs ys
         | _, _ => false
         end) l l'
  | _, _ => false
  end.

(** A [dict] keeps insertion order; assigning to a key that is present
    replaces the value in place. *)
Definition dict (K V : Type) : Type := list (K * V).

Fixpoint dict_get {K V : Type} (eqb : K -> K -> bool) (k : K) (d : dict K V)
  : option V :=
  match d with
  | [] => None
  | (k', v) :: d' => if eqb k' k then Some v else dict_get eqb k d'
  end.

Fixpoint dict_set {K V : Type} (eqb : K -> K -> bool) (k : K) (v : V)
  (d : dict K V) : dict K V :=
  match d with
  | [] => [(k, v)]
  | (k', v') :: d' =>
      if eqb k' k then (k', v) :: d' else (k', v') :: dict_set eqb k v d'
  end.

(** [id(u)] as a key component. *)
Definition id_key (u : Unit) : pyval := PInt (Z.of_nat (py_id u)).

(** ** The unit system *)

(** [UnitSystem.instance()]: the three interning tables and the registry of
    conversion factors.  [objects] is the allocation log: the object with
    identity [i] is its [i]-th entry. *)
Record UnitSystem : Type := mkUnitSystem {
  objects : list Unit;
  __primary_units__ : dict Dimension Unit;
  __derived_units__ : dict pyval Unit;
  __complex_units__ : dict pyval Unit;
  conversion_factor : Dimension -> option Quantity;
}.

Definition empty_system (cf : Dimension -> option Quantity) : UnitSystem :=
  mkUnitSystem [] [] [] [] cf.

(** Computations on the unit system that may raise. *)
Definition M (A : Type) : Type := UnitSystem -> result A * UnitSystem.

Definition ret {A : Type} (a : A) : M A := fun st => (Ok a, st).

Definition raise {A : Type} (e : pyexn) : M A := fun st => (Raise e, st).

Definition bind {A B : Type} (m : M A) (k : A -> M B) : M B :=
  fun st =>
    match m st with
    | (Ok a, st') => k a st'
    | (Raise e, st') => (Raise e, st')
    end.

Definition lift {A : Type} (r : result A) : M A := fun st => (r, st).

Definition get_system : M UnitSystem := fun st => (Ok st, st).

End Model.

Declare Scope M_scope.
Delimit Scope M_scope with M.
Notation "x <- c1 ;; c2" := (bind c1 (fun x => c2))
  (at level 100, c1 at next level, right associativity) : M_scope.

Section Construction.
Context {DA : DimensionAlgebra} {DS : DecimalStr}.

(** The identity of the next object to be allocated. *)
Definition fresh_id (st : UnitSystem) : nat := length (objects st).

Definition allocate (n : Unit) (st : UnitSystem) : UnitSystem :=
  mkUnitSystem (objects st ++ [n]) (__primary_units__ st)
    (__derived_units__ st) (__complex_units__ st) (conversion_factor st).

Definition set_primary (k : Dimension) (n : Unit) (st : UnitSystem) : UnitSystem :=
  mkUnitSystem (objects st)
    (dict_set (fun a b => bool_decide (a = b)) k n (__primary_units__ st))
    (__derived_units__ st) (__complex_units__ st) (conversion_factor st).

Definition set_derived (k : pyval) (n : Unit) (st : UnitSystem) : UnitSystem :=
  mkUnitSystem (objects st) (__primary_units__ st)
    (dict_set py_eqb k n (__derived_units__ st))
    (__complex_units__ st) (conversion_factor st).

Definition set_complex (k : pyval) (n : Unit) (st : UnitSystem) : UnitSystem :=
  mkUnitSystem (objects st) (__primary_units__ st) (__derived_units__ st)
    (dict_set py_eqb k n (__complex_units__ st)) (conversion_factor st).

(** [if name: object.__setattr__(n, 'name', name)]: an empty name is not
    stored. *)
Definition truthy_name (name : option string) : option string :=
  match name with
  | Some s => if decide (s = "") then None else Some s
  | None => None
  end.

(** [PrimaryUnit.__new__(cls, name=None, dimension=None)]. *)
Definition PrimaryUnit___new__ (name : option string) (dimension_ : Dimension)
  : M Unit :=
  fun st =>
    match dict_get (fun a b => bool_decide (a = b)) dimension_
            (__primary_units__ st) with
    | Some d =>
        match dimension d with
        | Ok dd => if decide (dd = dimension_) then (Ok d, st)
                   else (Raise AssertionError, st)
        | Raise e => (Raise e, st)
        end
    | None =>
        let n := PrimaryUnit (fresh_id st) (truthy_name name) dimension_ in
        (Ok n, set_primary dimension_ n (allocate n st))
    end.

(** What [DerivedUnit.__new__] accepts as [primary_unit]. *)
Inductive unit_or_quantity : Type :=
| AUnit (u : Unit)
| AQuantity (q : Quantity).

(** [DerivedUnit.__new__(cls, primary_unit, ratio=Decimal(1), name=None)]:
    the table is read under [(id(primary_unit), ratio)] and written under
    [(primary_unit, ratio)]. *)
Definition DerivedUnit___new__ (primary_unit : unit_or_quantity)
  (ratio_ : Decimal) (name : option string) : M Unit :=
  let '(primary_unit, ratio_) :=
    match primary_unit with
    | AQuantity q => (Quantity_unit q, Quantity_value q)
    | AUnit u => (u, ratio_)
    end in
  let '(primary_unit, ratio_) :=
    match primary_unit with
    | DerivedUnit _ _ p r => (p, (ratio_ * r)%Qc)
    | _ => (primary_unit, ratio_)
    end in
  fun st =>
    match dict_get py_eqb (PTuple [id_key primary_unit; PDecimal ratio_])
            (__derived_units__ st) with
    | Some d => (Ok d, st)
    | None =>
        let n := DerivedUnit (fresh_id st) (truthy_name name) primary_unit ratio_ in
        (Ok n, set_derived (PTuple [PUnit (py_id primary_unit); PDecimal ratio_])
                 n (allocate n st))
    end.

(** [OffsetDerivedUnit.__new__(cls, primary_unit, ratio=Decimal(1),
    offset=Decimal(0), name=None)]: [primary_unit] is replaced before its
    ratio is read, and the table is read under [(primary_unit, ratio,
    offset)] and written under [(id(primary_unit), ratio, offset)].  The
    method has no branch for a [Quantity]; the argument is a unit here. *)
Definition OffsetDerivedUnit___new__ (primary_unit : Unit)
  (ratio_ offset : Decimal) (name : option string) : M Unit :=
  (pr <- lift match primary_unit with
              | DerivedUnit _ _ p _ =>
                  (r <-? ratio p ;; Ok (p, (ratio_ * r)%Qc))%result
              | _ => Ok (primary_unit, ratio_)
              end ;;
   let '(primary_unit, ratio_) := pr in
   fun st =>
     match dict_get py_eqb
             (PTuple [PUnit (py_id primary_unit); PDecimal ratio_; PDecimal offset])
             (__derived_units__ st) with
     | Some d => (Ok d, st)
     | None =>
         let n := OffsetDerivedUnit (fresh_id st) (truthy_name name)
                    primary_unit ratio_ offset in
         (Ok n, set_derived
                  (PTuple [id_key primary_unit; PDecimal ratio_; PDecimal offset])
                  n (allocate n st))
     end)%M.

(** [DiffDerivedUnit.__new__(cls, offset_unit, name=None)]. *)
Definition DiffDerivedUnit___new__ (offset_unit : Unit) (name : option string)
  : M Unit :=
  match offset_unit with
  | OffsetDerivedUnit _ _ _ _ _ =>
      fun st =>
        match dict_get py_eqb (PTuple [id_key offset_unit; PStr "diff"])
                (__derived_units__ st) with
        | Some d => (Ok d, st)
        | None =>
            let n := DiffDerivedUnit (fresh_id st) (truthy_name name) offset_unit in
            (Ok n, set_derived (PTuple [id_key offset_unit; PStr "diff"])
                     n (allocate n st))
        end
  | _ =>
      (s <- lift (Unit___str__ offset_unit) ;;
       raise (ValueError_cannot_create_diff s))%M
  end.

(** The field [diff] of an offset unit:
    [lambda s: DiffDerivedUnit(offset_unit=s)]. *)
Definition diff (s : Unit) : M Unit := DiffDerivedUnit___new__ s None.

(** [Unit._to_components] and its override in [ComplexUnit]:
    [type(self).name.__overriden__(self)] holds when the instance carries
    a name of its own. *)
Definition _to_components (self : Unit) (power : Z) : list (Unit * Z) :=
  match self with
  | ComplexUnit _ n cs sc =>
      if bool_decide (is_Some n) || bool_decide (default 1%Qc sc <> 1%Qc)
      then [(self, power)]
      else if decide (power = 1) then cs
           else map (fun '(u, p) => (u, p * power)) cs
  | _ => [(self, power)]
  end.

(** The key [ComplexUnit.__new__] interns under. *)
Definition lookup_key (components : list (Unit * Z)) (scale : option Decimal)
  : pyval :=
  PTuple (map (fun '(u, p) => PTuple [id_key u; PInt p]) components
          ++ match scale with Some s => [PDecimal s] | None => [] end).

(** What [ComplexUnit.__new__] accepts as [components]. *)
Inductive components_arg : Type :=
| FromQuantity (q : Quantity)
| FromComponents (cs : list (Unit * Z)).

(** [ComplexUnit.__new__(cls, components, name=None)]. *)
Definition ComplexUnit___new__ (components : components_arg)
  (name : option string) : M Unit :=
  let '(scale, components) :=
    match components with
    | FromQuantity q =>
        (Some (Quantity_value q), _to_components (Quantity_unit q) 1)
    | FromComponents cs => (None, cs)
    end in
  fun st =>
    match dict_get py_eqb (lookup_key components scale) (__complex_units__ st) with
    | Some d => (Ok d, st)
    | None =>
        if forallb (fun '(u, _) => _is_multiplicative u) components then
          let n := ComplexUnit (fresh_id st) (truthy_name name) components scale in
          (Ok n, set_complex (lookup_key components scale) n (allocate n st))
        else (Raise AssertionError, st)
    end.

End Construction.

Section Algebra.
Context {DA : DimensionAlgebra} {DS : DecimalStr}.

(** [defaultdict(int, pairs)]: a later pair with a key already seen
    replaces the value and keeps the first position.  Units are looked up
    by [Unit.__hash__], that is by identity. *)
Definition dict_of_pairs (pairs : list (Unit * Z)) : dict Unit Z :=
  fold_left (fun d '(u, p) => dict_set is_ u p d) pairs [].

(** [components[u] += p] on a [defaultdict(int)]. *)
Definition dict_add (u : Unit) (p : Z) (d : dict Unit Z) : dict Unit Z :=
  dict_set is_ u (default 0 (dict_get is_ u d) + p) d.

(** [PrimaryUnit.__pow__]. *)
Definition PrimaryUnit___pow__ (self : Unit) (power : Z) : M Unit :=
  ComplexUnit___new__ (FromComponents [(self, power)]) None.

(** [DerivedUnit.__pow__]: the exponent is the literal [2]. *)
Definition DerivedUnit___pow__ (self : Unit) (power : Z) : M Unit :=
  ComplexUnit___new__ (FromComponents [(self, 2)]) None.

(** [ComplexUnit.__pow__]: defined on the class, so the argument is a
    complex unit; it reads [self.components], not [_to_components]. *)
Definition ComplexUnit___pow__ (self : Unit) (power : Z) : M Unit :=
  match self with
  | ComplexUnit _ _ cs _ =>
      ComplexUnit___new__
        (FromComponents (map (fun '(u, p) => (u, p * power)) cs)) None
  | _ => raise AttributeError
  end.

(** [self ** power], dispatched on the class of [self]; the offset and diff
    classes inherit [DerivedUnit.__pow__]. *)
Definition __pow__ (self : Unit) (power : Z) : M Unit :=
  match self with
  | PrimaryUnit _ _ _ => PrimaryUnit___pow__ self power
  | ComplexUnit _ _ _ _ => ComplexUnit___pow__ self power
  | _ => DerivedUnit___pow__ self power
  end.

(** [PrimaryUnit.__mul__]; the [isinstance] test accepts every class of the
    hierarchy, so for a unit operand the [ValueError] branch is dead. *)
Definition PrimaryUnit___mul__ (self other : Unit) : M Unit :=
  let components := dict_of_pairs (_to_components other 1) in
  let components := dict_add self 1 components in
  ComplexUnit___new__ (FromComponents components) None.

Definition PrimaryUnit___truediv__ (self other : Unit) : M Unit :=
  let components := dict_of_pairs (_to_components other (-1)) in
  let components := dict_add self 1 components in
  ComplexUnit___new__ (FromComponents components) None.

(** [DerivedUnit.__mul__] and [__truediv__], the same text as in
    [PrimaryUnit]. *)
Definition DerivedUnit___mul__ (self other : Unit) : M Unit :=
  let components := dict_of_pairs (_to_components other 1) in
  let components := dict_add self 1 components in
  ComplexUnit___new__ (FromComponents components) None.

Definition DerivedUnit___truediv__ (self other : Unit) : M Unit :=
  let components := dict_of_pairs (_to_components other (-1)) in
  let components := dict_add self 1 components in
  ComplexUnit___new__ (FromComponents components) None.

(** [ComplexUnit.__mul__] and [__truediv__]: every component of [self] is
    added to the dictionary built from [other]. *)
Definition ComplexUnit___mul__ (self other : Unit) : M Unit :=
  let components := dict_of_pairs (_to_components other 1) in
  let components :=
    fold_left (fun d '(u, p) => dict_add u p d) (_to_components self 1)
      components in
  ComplexUnit___new__ (FromComponents components) None.

Definition ComplexUnit___truediv__ (self other : Unit) : M Unit :=
  let components := dict_of_pairs (_to_components other (-1)) in
  let components :=
    fold_left (fun d '(u, p) => dict_add u p d) (_to_components self 1)
      components in
  ComplexUnit___new__ (FromComponents components) None.

(** [self * other]. *)
Definition __mul__ (self other : Unit) : M Unit :=
  match self with
  | PrimaryUnit _ _ _ => PrimaryUnit___mul__ self other
  | ComplexUnit _ _ _ _ => ComplexUnit___mul__ self other
  | _ => DerivedUnit___mul__ self other
  end.

(** [self / other]. *)
Definition __truediv__ (self other : Unit) : M Unit :=
  match self with
  | PrimaryUnit _ _ _ => PrimaryUnit___truediv__ self other
  | ComplexUnit _ _ _ _ => ComplexUnit___truediv__ self other
  | _ => DerivedUnit___truediv__ self other
  end.

(** ** Conversion *)

(** [self._do_convert(value, to)], one case per class; [DiffDerivedUnit]
    inherits the method of [DerivedUnit] and reads [ratio] and
    [primary_unit] from its offset unit. *)
Fixpoint _do_convert (self : Unit) (value : NUMBER) (to : Unit)
  : result NUMBER :=
  match self with
  | PrimaryUnit _ _ _ =>
      match to with
      | OffsetDerivedUnit _ _ _ r o =>
          (q <-? num_div value (cast_like value r) ;;
           num_sub q (cast_like value o))%result
      | DerivedUnit _ _ _ _ | DiffDerivedUnit _ _ _ =>
          (r <-? ratio to ;; num_div value (cast_like value r))%result
      | _ => Raise AssertionError
      end
  | DerivedUnit _ _ p r =>
      (primary_value <-? num_mul value (cast_like value r) ;;
       if negb (is_ to p) then _do_convert p primary_value to
       else Ok primary_value)%result
  | OffsetDerivedUnit _ _ p r o =>
      (shifted <-? num_add value (cast_like value o) ;;
       primary_value <-? num_mul shifted (cast_like value r) ;;
       if negb (is_ to p) then _do_convert p primary_value to
       else Ok primary_value)%result
  | DiffDerivedUnit _ _ ou =>
      match ou with
      | OffsetDerivedUnit _ _ p r _ =>
          (primary_value <-? num_mul value (cast_like value r) ;;
           if negb (is_ to p) then _do_convert p primary_value to
           else Ok primary_value)%result
      | _ => Raise AttributeError
      end
  | ComplexUnit _ _ _ _ =>
      (sr <-? ratio self ;; tr <-? ratio to ;;
       q <-? Decimal_div sr tr ;;
       num_mul (cast_like value q) value)%result
  end.

(** [Unit.convert(self, value, to)].  [fuel] bounds the depth of the
    recursion through conversion factors, as the interpreter's recursion
    limit does. *)
Fixpoint convert (fuel : nat) (self : Unit) (value : NUMBER) (to : Unit)
  : M NUMBER :=
  if is_ to self then ret value
  else
    (ds <- lift (dimension self) ;;
     dt <- lift (dimension to) ;;
     if decide (ds = dt) then lift (_do_convert self value to)
     else
       st <- get_system ;;
       match conversion_factor st (dim_div dt ds) with
       | Some factor =>
           match fuel with
           | O => raise RecursionError
           | S fuel' =>
               converted_value <-
                 lift (num_mul value (cast_like value (Quantity_value factor))) ;;
               converted_units <- __mul__ self (Quantity_unit factor) ;;
               convert fuel' converted_units converted_value to
           end
       | None =>
           s <- lift (Unit___str__ self) ;;
           t <- lift (Unit___str__ to) ;;
           raise (ValueError_cannot_convert s t (dim_div dt ds))
       end)%M.

End Algebra.

Section Equality.
Context {DA : DimensionAlgebra} {DS : DecimalStr}.

(** Every class of the hierarchy is declared
    [@dataclass(frozen=True, kw_only=True, init=False)]; [eq] keeps its
    default, so the decorator gives each class an [__eq__] that answers
    [NotImplemented] for an object of another class and otherwise compares
    the two tuples of fields, in the order of declaration.  The values such
    a tuple holds: *)
Inductive field_value : Type :=
| FName (n : option string)
| FDimension (d : Dimension)
| FDecimal (d : Decimal)
| FUnit (u : Unit)
| FComponents (cs : list (Unit * Z)).

(** The tuple of fields of an object.  Reading [name], [dimension] and
    [ratio] evaluates their defaults and may raise; reading [diff] of an
    offset unit builds or finds its diff unit. *)
Definition dataclass_fields (u : Unit) : M (list field_value) :=
  match u with
  | PrimaryUnit _ _ d =>
      (n <- lift (name u) ;;
       ret [FName n; FDimension d; FDecimal 1%Qc])%M
  | DerivedUnit _ _ p r =>
      (n <- lift (name u) ;; d <- lift (dimension u) ;;
       ret [FName n; FDimension d; FUnit p; FDecimal r])%M
  | OffsetDerivedUnit _ _ p r o =>
      (n <- lift (name u) ;; d <- lift (dimension u) ;;
       df <- diff u ;;
       ret [FName n; FDimension d; FUnit p; FDecimal r; FDecimal o; FUnit df])%M
  | DiffDerivedUnit _ _ ou =>
      (n <- lift (name u) ;; d <- lift (dimension u) ;;
       p <- lift match ou with
                 | OffsetDerivedUnit _ _ p _ _ => Ok p
                 | _ => Raise AttributeError
                 end ;;
       r <- lift (ratio u) ;;
       ret [FName n; FDimension d; FUnit p; FDecimal r; FUnit ou])%M
  | ComplexUnit _ _ cs sc =>
      (n <- lift (name u) ;; d <- lift (dimension u) ;;
       r <- lift (ratio u) ;;
       ret [FName n; FDimension d; FComponents cs;
            FDecimal (default 1%Qc sc); FDecimal r])%M
  end.

(** Comparison of two tuples of [(unit, exponent)] pairs, given the
    comparison [eq_unit] of two units: the first pair that differs decides,
    then the lengths. *)
Fixpoint components_eq (eq_unit : Unit -> Unit -> M bool)
  (a b : list (Unit * Z)) : M bool :=
  match a, b with
  | [], [] => ret true
  | (u, p) :: a', (w, q) :: b' =>
      (e <- eq_unit u w ;;
       if e && bool_decide (p = q) then components_eq eq_unit a' b'
       else ret false)%M
  | _, _ => ret false
  end.

Definition field_eq (eq_unit : Unit -> Unit -> M bool) (a b : field_value)
  : M bool :=
  match a, b with
  | FName x, FName y => ret (bool_decide (x = y))
  | FDimension x, FDimension y => ret (bool_decide (x = y))
  | FDecimal x, FDecimal y => ret (bool_decide (x = y))
  | FUnit x, FUnit y => eq_unit x y
  | FComponents x, FComponents y => components_eq eq_unit x y
  | _, _ => ret false
  end.

Fixpoint fields_eq (eq_unit : Unit -> Unit -> M bool)
  (a b : list field_value) : M bool :=
  match a, b with
  | [], [] => ret true
  | x :: a', y :: b' =>
      (e <- field_eq eq_unit x y ;;
       if e then fields_eq eq_unit a' b' else ret false)%M
  | _, _ => ret false
  end.

(** [self == other] on two units.  Inside a tuple two items are equal when
    they are the same object or compare equal; [fuel] is the depth of
    recursion the interpreter allows. *)
Fixpoint Unit___eq__ (fuel : nat) (self other : Unit) : M bool :=
  match fuel with
  | O => raise RecursionError
  | S fuel' =>
      if decide (class_of self = class_of other) then
        (a <- dataclass_fields self ;;
         b <- dataclass_fields other ;;
         fields_eq (fun u w => if is_ u w then ret true
                               else Unit___eq__ fuel' u w) a b)%M
      else ret false
  end.

End Equality.

(** ** Well-formed unit systems *)

Section Invariant.
Context {DA : DimensionAlgebra}.

(** [u] is an object of the system: the allocation log holds it under its
    identity. *)
Definition allocated (st : UnitSystem) (u : Unit) : Prop :=
  objects st !! py_id u = Some u.

(** The objects a unit refers to. *)
Definition references (u : Unit) : list Unit :=
  match u with
  | PrimaryUnit _ _ _ => []
  | DerivedUnit _ _ p _ | OffsetDerivedUnit _ _ p _ _ => [p]
  | DiffDerivedUnit _ _ ou => [ou]
  | ComplexUnit _ _ cs _ => map fst cs
  end.

(** What [__new__] guarantees of an object it builds: a diff unit hangs off
    an offset unit, and a complex unit passed the assertion on
    [_is_multiplicative]. *)
Definition built_by_new (u : Unit) : Prop :=
  match u with
  | DiffDerivedUnit _ _ ou => class_of ou = cOffsetDerivedUnit
  | ComplexUnit _ _ cs _ => Forall (fun c => _is_multiplicative c.1 = true) cs
  | _ => True
  end.

(** The key under which [__new__] writes a derived, offset or diff unit. *)
Definition derived_key (u : Unit) : option pyval :=
  match u with
  | DerivedUnit _ _ p r => Some (PTuple [PUnit (py_id p); PDecimal r])
  | OffsetDerivedUnit _ _ p r o =>
      Some (PTuple [id_key p; PDecimal r; PDecimal o])
  | DiffDerivedUnit _ _ ou => Some (PTuple [id_key ou; PStr "diff"])
  | _ => None
  end.

Definition complex_key (u : Unit) : option pyval :=
  match u with
  | ComplexUnit _ _ cs sc => Some (lookup_key cs sc)
  | _ => None
  end.

(** The invariant the constructors maintain. *)
Record wf (st : UnitSystem) : Prop := mk_wf {
  wf_objects : forall i u, objects st !! i = Some u ->
    py_id u = i /\ Forall (allocated st) (references u) /\ built_by_new u;
  wf_primary : forall d u, In (d, u) (__primary_units__ st) ->
    allocated st u /\ dimension u = Ok d;
  wf_derived : forall k u, In (k, u) (__derived_units__ st) ->
    allocated st u /\ derived_key u = Some k;
  wf_complex : forall k u, In (k, u) (__complex_units__ st) ->
    allocated st u /\ complex_key u = Some k;
}.

(** [r] is a usable ratio: defined and not zero. *)
Definition ratio_nonzero (u : Unit) : Prop :=
  exists r, ratio u = Ok r /\ r <> 0%Qc.

Definition has_dimension (u : Unit) : Prop :=
  exists d, dimension u = Ok d.

End Invariant.

(** ** Auxiliary predicates *)

(** The exceptions [Unit.convert] raises itself, as opposed to those that
    escape from an attribute or from arithmetic. *)
Definition conversion_error {DA : DimensionAlgebra} (e : pyexn) : bool :=
  match e with ValueError_cannot_convert _ _ _ => true | _ => false end.

Definition no_conversion_error {DA : DimensionAlgebra} {A : Type}
  (r : result A) : Prop :=
  match r with Raise e => conversion_error e = false | Ok _ => True end.

(** The product of the weights of a list of components, each raised to its
    exponent: what [ratio] and [dimension] compute for a complex unit, up
    to the order of the factors. *)
Definition weighted_product {DA : DimensionAlgebra} {G : Type}
  (mul : G -> G -> G) (pow : G -> Z -> G) (e : G) (w : Unit -> G)
  (cs : list (Unit * Z)) : G :=
  fold_right (fun c acc => mul (pow (w c.1) c.2) acc) e cs.

Definition ratio_value {DA : DimensionAlgebra} (u : Unit) : Qc :=
  match ratio u with Ok r => r | Raise _ => 1%Qc end.

Definition dimension_value {DA : DimensionAlgebra} (d0 : Dimension) (u : Unit)
  : Dimension :=
  match dimension u with Ok d => d | Raise _ => d0 end.

(** The components that [self * other] (with [power] one) and
    [self / other] (with [power] minus one) hand to [ComplexUnit]: the
    dictionary built from [other._to_components(power)], to which the
    components of [self] are added. *)
Definition merged {DA : DimensionAlgebra} (a b : Unit) (power : Z)
  : list (Unit * Z) :=
  fold_left (fun d '(u, p) => dict_add u p d) (_to_components a 1)
    (dict_of_pairs (_to_components b power)).

(** No complex unit of the system carries a name of its own: all of them
    were built by the operators, or by [ComplexUnit] without a name. *)
Definition complex_units_unnamed {DA : DimensionAlgebra} (st : UnitSystem)
  : Prop :=
  forall u, allocated st u -> class_of u = cComplexUnit -> own_name u = None.

(** ** Units over a primary unit *)

(** [u] is a derived, offset or diff unit whose primary unit is [p]. *)
Definition derived_from {DA : DimensionAlgebra} (p u : Unit) : Prop :=
  match u with
  | DerivedUnit _ _ q _ | OffsetDerivedUnit _ _ q _ _ => q = p
  | DiffDerivedUnit _ _ (OffsetDerivedUnit _ _ q _ _) => q = p
  | _ => False
  end.

(** [u] is [p] itself or a unit over [p]: the units between which
    [_do_convert] goes through [p]. *)
Definition unit_of {DA : DimensionAlgebra} (p u : Unit) : Prop :=
  u = p \/ derived_from p u.

(** The offset a unit adds to a value before it scales it: the field of an
    offset unit, and nothing for any other unit. *)
Definition offset_value {DA : DimensionAlgebra} (u : Unit) : Decimal :=
  match u with OffsetDerivedUnit _ _ _ _ o => o | _ => 0%Qc end.

(** Every primary unit of the system is the entry of [__primary_units__]
    under its dimension. *)
Definition primary_registered {DA : DimensionAlgebra} (st : UnitSystem) : Prop :=
  forall i n d,
    allocated st (PrimaryUnit i n d) ->
    dict_get (fun a b => bool_decide (a = b)) d (__primary_units__ st)
    = Some (PrimaryUnit i n d).

(** ** A small unit system for the examples *)

Section Examples.
#[local] Existing Instance exponent_dims.
#[local] Existing Instance fraction_str.

Definition length_ : Dimension := (1, 0).
Definition temperature : Dimension := (0, 1).

(** A registry without conversion factors. *)
Definition no_factors : Dimension -> option Quantity := fun _ => None.

Definition metre : Unit := PrimaryUnit 0 (Some "metre") length_.
Definition kelvin : Unit := PrimaryUnit 1 (Some "kelvin") temperature.
Definition celsius : Unit :=
  OffsetDerivedUnit 2 (Some "celsius") kelvin 1%Qc (Q2Qc (27315 # 100)).
Definition kilometre : Unit :=
  DerivedUnit 3 (Some "kilometre") metre (Q2Qc 1000).

(** The system after [metre], [kelvin], [celsius] and [kilometre] were
    built, in this order. *)
Definition world1 : UnitSystem :=
  snd (PrimaryUnit___new__ (Some "metre") length_ (empty_system no_factors)).
Definition world2 : UnitSystem :=
  snd (PrimaryUnit___new__ (Some "kelvin") temperature world1).
Definition world3 : UnitSystem :=
  snd (OffsetDerivedUnit___new__ kelvin 1%Qc (Q2Qc (27315 # 100))
         (Some "celsius") world2).
Definition world : UnitSystem :=
  snd (DerivedUnit___new__ (AUnit metre) (Q2Qc 1000) (Some "kilometre") world3).

(** A complex unit with a name of its own, and the system that holds it. *)
Definition named_metre : Unit := ComplexUnit 4 (Some "m1") [(metre, 1)] None.
Definition world_named : UnitSystem :=
  snd (ComplexUnit___new__ (FromComponents [(metre, 1)]) (Some "m1") world).

(** More units over [kelvin] and [metre], and the system [lab] that holds
    them: [world] after [fahrenheit], the two diff units, [millimetre] and
    the complex unit of [kilometre] alone were built, in this order. *)
Definition fahrenheit : Unit :=
  OffsetDerivedUnit 4 (Some "fahrenheit") kelvin (Q2Qc (5 # 9))
    (Q2Qc (45967 # 100)).
Definition celsius_diff : Unit := DiffDerivedUnit 5 None celsius.
Definition fahrenheit_diff : Unit := DiffDerivedUnit 6 None fahrenheit.
Definition millimetre : Unit :=
  DerivedUnit 7 (Some "millimetre") metre (Q2Qc (1 # 1000)).
Definition kilometre_alone : Unit := ComplexUnit 8 None [(kilometre, 1)] None.

Definition lab : UnitSystem :=
  snd ((_ <- OffsetDerivedUnit___new__ kelvin (Q2Qc (5 # 9))
              (Q2Qc (45967 # 100)) (Some "fahrenheit") ;;
        _ <- diff celsius ;;
        _ <- diff fahrenheit ;;
        _ <- DerivedUnit___new__ (AUnit metre) (Q2Qc (1 # 1000))
              (Some "millimetre") ;;
        ComplexUnit___new__ (FromComponents [(kilometre, 1)]) None)%M world).

End Examples.

(** * Properties *)

Section Conversion.
Context {DA : DimensionAlgebra} {DS : DecimalStr}.

Lemma is_refl (u : Unit) : is_ u u = true.
Proof. unfold is_. apply bool_decide_eq_true_2. reflexivity. Qed.

Lemma is_sym (u w : Unit) : is_ u w = is_ w u.
Proof. unfold is_. apply bool_decide_ext. split; congruence. Qed.

Lemma is_true_iff (u w : Unit) : is_ u w = true <-> py_id u = py_id w.
Proof. unfold is_. apply bool_decide_eq_true. Qed.

Lemma is_false_iff (u w : Unit) : is_ u w = false <-> py_id u <> py_id w.
Proof. unfold is_. apply bool_decide_eq_false. Qed.

Lemma convert_unfold (fuel : nat) (self : Unit) (value : NUMBER) (to : Unit) :
  convert fuel self value to =
  if is_ to self then ret value
  else
    (ds <- lift (dimension self) ;;
     dt <- lift (dimension to) ;;
     if decide (ds = dt) then lift (_do_convert self value to)
     else
       st <- get_system ;;
       match conversion_factor st (dim_div dt ds) with
       | Some factor =>
           match fuel with
           | O => raise RecursionError
           | S fuel' =>
               converted_value <-
                 lift (num_mul value (cast_like value (Quantity_value factor))) ;;
               converted_units <- __mul__ self (Quantity_unit factor) ;;
               convert fuel' converted_units converted_value to
           end
       | None =>
           s <- lift (Unit___str__ self) ;;
           t <- lift (Unit___str__ to) ;;
           raise (ValueError_cannot_convert s t (dim_div dt ds))
       end)%M.
Proof. destruct fuel; reflexivity. Qed.

(** Claim C4.  [u.convert(v, u)] returns [v] itself, for every unit [u]
    and every number [v]: the test [to is self] comes first, so no
    arithmetic touches [v], the unit system is left as it was, and no
    depth of recursion is needed. *)
Theorem convert_to_self (fuel : nat) (u : Unit) (v : NUMBER) (st : UnitSystem) :
  convert fuel u v u st = (Ok v, st).
Proof. rewrite convert_unfold, is_refl. reflexivity. Qed.

End Conversion.

Section OffsetRoundTrip.
Context {DA : DimensionAlgebra} {DS : DecimalStr}.

Lemma num_div_Decimal (a b : Decimal) :
  b <> 0%Qc -> num_div (PyDecimal a) (PyDecimal b) = Ok (PyDecimal (a / b)%Qc).
Proof.
  intros Hb. unfold num_div. cbn [rbind join_ty type_of num_val num_make].
  case_decide; [contradiction|reflexivity].
Qed.

Lemma primary_to_offset (fuel : nat) (i j : nat) (n m : option string)
  (d : Dimension) (r o : Decimal) (v : Decimal) (st : UnitSystem) :
  i <> j -> r <> 0%Qc ->
  convert fuel (PrimaryUnit i n d) (PyDecimal v)
    (OffsetDerivedUnit j m (PrimaryUnit i n d) r o) st
  = (Ok (PyDecimal (v / r - o)%Qc), st).
Proof.
  intros Hij Hr. rewrite convert_unfold.
  replace (is_ _ _) with false by (symmetry; apply is_false_iff; simpl; congruence).
  unfold bind, lift. simpl.
  destruct (decide (d = d)) as [_|]; [|contradiction].
  unfold cast_like. simpl. rewrite num_div_Decimal by assumption. reflexivity.
Qed.

Lemma offset_to_primary (fuel : nat) (i j : nat) (n m : option string)
  (d : Dimension) (r o : Decimal) (x : Decimal) (st : UnitSystem) :
  i <> j ->
  convert fuel (OffsetDerivedUnit j m (PrimaryUnit i n d) r o) (PyDecimal x)
    (PrimaryUnit i n d) st
  = (Ok (PyDecimal ((x + o) * r)%Qc), st).
Proof.
  intros Hij. rewrite convert_unfold.
  replace (is_ _ _) with false by (symmetry; apply is_false_iff; simpl; congruence).
  unfold bind, lift. simpl.
  destruct (decide (d = d)) as [_|]; [|contradiction].
  rewrite is_refl. reflexivity.
Qed.


End OffsetRoundTrip.

Section UnitInduction.
Context {DA : DimensionAlgebra}.

(** Induction on units that reaches the components of a complex unit. *)
Lemma Unit_ind' (P : Unit -> Prop)
  (HP : forall i n d, P (PrimaryUnit i n d))
  (HD : forall i n p r, P p -> P (DerivedUnit i n p r))
  (HO : forall i n p r o, P p -> P (OffsetDerivedUnit i n p r o))
  (HF : forall i n ou, P ou ->
     (forall j m p r o, ou = OffsetDerivedUnit j m p r o -> P p) ->
     P (DiffDerivedUnit i n ou))
  (HC : forall i n cs sc, Forall (fun c => P c.1) cs -> P (ComplexUnit i n cs sc)) :
  forall u, P u.
Proof.
  fix IH 1. intros [i n d|i n p r|i n p r o|i n ou|i n cs sc].
  - apply HP.
  - apply HD, IH.
  - apply HO, IH.
  - apply HF; [apply IH|].
    destruct ou as [| |j' m' p' r' o'| |]; try discriminate.
    intros j m p r o Heq.
    replace p with p' by congruence. apply IH.
  - apply HC. induction cs as [|[c m] cs IHcs]; constructor; [apply IH|exact IHcs].
Qed.

Lemma rbind_assoc {A B C : Type} (r : result A) (k : A -> result B)
  (h : B -> result C) :
  rbind (rbind r k) h = rbind r (fun a => rbind (k a) h).
Proof. destruct r; reflexivity. Qed.

Lemma ratio_ComplexUnit (i : nat) (n : option string) (cs : list (Unit * Z))
  (sc : option Decimal) :
  ratio (ComplexUnit i n cs sc) =
  (ps <-? traverse (fun '(c, m) => r <-? ratio c ;; Decimal_pow r m) cs ;;
   prod <-? reduce_mul Qcmult ps ;;
   Ok (prod * default 1%Qc sc)%Qc)%result.
Proof.
  cbn [ratio]. f_equal.
  induction cs as [|[c m] cs IHcs]; [reflexivity|].
  cbn [traverse]. rewrite rbind_assoc, IHcs. reflexivity.
Qed.

Lemma dimension_ComplexUnit (i : nat) (n : option string) (cs : list (Unit * Z))
  (sc : option Decimal) :
  dimension (ComplexUnit i n cs sc) =
  (ds <-? traverse (fun '(c, m) => d <-? dimension c ;; Ok (dim_pow d m)) cs ;;
   reduce_mul dim_mul ds)%result.
Proof.
  cbn [dimension]. f_equal.
  induction cs as [|[c m] cs IHcs]; [reflexivity|].
  cbn [traverse]. rewrite rbind_assoc, IHcs. reflexivity.
Qed.

End UnitInduction.

Section CrossDimension.
Context {DA : DimensionAlgebra} {DS : DecimalStr}.

Lemma nce_rbind {A B : Type} (r : result A) (k : A -> result B) :
  no_conversion_error r -> (forall a, no_conversion_error (k a)) ->
  no_conversion_error (rbind r k).
Proof. destruct r; simpl; auto. Qed.

Lemma nce_traverse {A B : Type} (f : A -> result B) (xs : list A) :
  Forall (fun x => no_conversion_error (f x)) xs ->
  no_conversion_error (traverse f xs).
Proof.
  induction 1 as [|x xs Hx _ IH]; simpl; [exact I|].
  apply nce_rbind; [exact Hx|]. intros y. apply nce_rbind; [exact IH|]. intros; exact I.
Qed.

Lemma nce_reduce_mul {A : Type} (mul : A -> A -> A) (xs : list A) :
  no_conversion_error (reduce_mul mul xs).
Proof. destruct xs; simpl; reflexivity || exact I. Qed.

Lemma nce_Decimal_pow (x : Decimal) (m : Z) : no_conversion_error (Decimal_pow x m).
Proof. unfold Decimal_pow. repeat case_decide; simpl; reflexivity || exact I. Qed.

Lemma nce_Decimal_div (a b : Decimal) : no_conversion_error (Decimal_div a b).
Proof. unfold Decimal_div. case_decide; simpl; reflexivity || exact I. Qed.

Lemma nce_join_ty (a b : numty) : no_conversion_error (join_ty a b).
Proof. destruct a, b; simpl; reflexivity || exact I. Qed.

Lemma nce_num_add (a b : NUMBER) : no_conversion_error (num_add a b).
Proof.
  unfold num_add. destruct a, b; try exact I;
    (apply nce_rbind; [apply nce_join_ty|intros; exact I]).
Qed.

Lemma nce_num_sub (a b : NUMBER) : no_conversion_error (num_sub a b).
Proof.
  unfold num_sub. destruct a, b; try exact I;
    (apply nce_rbind; [apply nce_join_ty|intros; exact I]).
Qed.

Lemma nce_num_mul (a b : NUMBER) : no_conversion_error (num_mul a b).
Proof.
  unfold num_mul. destruct a, b; try exact I;
    (apply nce_rbind; [apply nce_join_ty|intros; exact I]).
Qed.

Lemma nce_num_div (a b : NUMBER) : no_conversion_error (num_div a b).
Proof.
  unfold num_div. apply nce_rbind; [apply nce_join_ty|].
  intros t. case_decide; simpl; reflexivity || exact I.
Qed.

Lemma nce_ratio (u : Unit) : no_conversion_error (ratio u).
Proof.
  induction u as [i n d|i n p r IH|i n p r o IH|i n ou IH IHp|i n cs sc IH] using Unit_ind';
    try exact I.
  - destruct ou; simpl; reflexivity || exact I.
  - rewrite ratio_ComplexUnit. apply nce_rbind.
    + apply nce_traverse. eapply Forall_impl; [exact IH|].
      intros [c m] Hc. simpl in *. apply nce_rbind; [exact Hc|]. intros; apply nce_Decimal_pow.
    + intros ps. apply nce_rbind; [apply nce_reduce_mul|]. intros; exact I.
Qed.

Lemma nce_dimension (u : Unit) : no_conversion_error (dimension u).
Proof.
  induction u as [i n d|i n p r IH|i n p r o IH|i n ou IH IHp|i n cs sc IH] using Unit_ind';
    try exact I; try exact IH.
  - destruct ou; try (simpl; reflexivity). simpl in IH. exact IH.
  - rewrite dimension_ComplexUnit. apply nce_rbind.
    + apply nce_traverse. eapply Forall_impl; [exact IH|].
      intros [c m] Hc. simpl in *. apply nce_rbind; [exact Hc|]. intros; exact I.
    + intros ps. apply nce_reduce_mul.
Qed.

End CrossDimension.

Section CrossDimension2.
Context {DA : DimensionAlgebra} {DS : DecimalStr}.

Lemma nce_name (u : Unit) : no_conversion_error (name u).
Proof.
  induction u as [i n d|i n p r IH|i n p r o IH|i n ou IH IHp|i n cs sc IH] using Unit_ind';
    try exact I.
  - cbn [name]. destruct n; [exact I|]. apply nce_rbind; [exact IH|intros; exact I].
  - cbn [name]. destruct n; [exact I|]. apply nce_rbind; [exact IH|intros; exact I].
  - cbn [name]. destruct n; [exact I|]. apply nce_rbind; [exact IH|intros; exact I].
  - cbn [name]. destruct n; [exact I|].
    apply nce_rbind.
    { induction IH as [|[c m] cs Hc _ IHcs]; [exact I|].
      case_decide; [|exact IHcs].
      apply nce_rbind; [exact Hc|]. intros dn.
      apply nce_rbind; [destruct dn; simpl; reflexivity || exact I|]. intros s.
      apply nce_rbind; [exact IHcs|]. intros; exact I. }
    intros ups. apply nce_rbind; [|intros; exact I].
    induction IH as [|[c m] cs Hc _ IHcs]; [exact I|].
    case_decide; [|exact IHcs].
    apply nce_rbind; [exact Hc|]. intros dn.
    apply nce_rbind; [destruct dn; simpl; reflexivity || exact I|]. intros s.
    apply nce_rbind; [exact IHcs|]. intros; exact I.
Qed.

Lemma nce_Unit_str (u : Unit) : no_conversion_error (Unit___str__ u).
Proof.
  unfold Unit___str__. apply nce_rbind; [apply nce_name|].
  intros [s|]; simpl; reflexivity || exact I.
Qed.

Lemma nce_do_convert (self : Unit) (value : NUMBER) (to : Unit) :
  no_conversion_error (_do_convert self value to).
Proof.
  revert value.
  induction self as [i n d|i n p r IH|i n p r o IH|i n ou IH IHp|i n cs sc IH] using Unit_ind';
    intros value.
  - cbn [_do_convert]. destruct to; try reflexivity.
    + apply nce_rbind; [apply nce_ratio|intros; apply nce_num_div].
    + apply nce_rbind; [apply nce_num_div|intros; apply nce_num_sub].
    + apply nce_rbind; [apply nce_ratio|intros; apply nce_num_div].
  - cbn [_do_convert]. apply nce_rbind; [apply nce_num_mul|]. intros pv.
    destruct (negb _); [apply IH|exact I].
  - cbn [_do_convert]. apply nce_rbind; [apply nce_num_add|]. intros sh.
    apply nce_rbind; [apply nce_num_mul|]. intros pv.
    destruct (negb _); [apply IH|exact I].
  - cbn [_do_convert]. destruct ou; try reflexivity.
    apply nce_rbind; [apply nce_num_mul|]. intros pv.
    destruct (negb _); [|exact I].
    eapply IHp. reflexivity.
  - cbn [_do_convert]. apply nce_rbind; [apply nce_ratio|]. intros sr.
    apply nce_rbind; [apply nce_ratio|]. intros tr.
    apply nce_rbind; [apply nce_Decimal_div|]. intros q. apply nce_num_mul.
Qed.

End CrossDimension2.

Section CrossDimension3.
Context {DA : DimensionAlgebra} {DS : DecimalStr}.

Lemma ComplexUnit_new_factor (a : components_arg) (n : option string)
  (st st' : UnitSystem) (r : result Unit) :
  ComplexUnit___new__ a n st = (r, st') ->
  conversion_factor st' = conversion_factor st /\ no_conversion_error r.
Proof.
  unfold ComplexUnit___new__. destruct a as [q|cs];
    (destruct (dict_get _ _ _); [intros [= <- <-]; split; [reflexivity|exact I]|]);
    (destruct (forallb _ _); intros [= <- <-]; split; reflexivity || exact I).
Qed.

Lemma mul_factor (self other : Unit) (st st' : UnitSystem) (r : result Unit) :
  __mul__ self other st = (r, st') ->
  conversion_factor st' = conversion_factor st /\ no_conversion_error r.
Proof. destruct self; apply ComplexUnit_new_factor. Qed.

(** A conversion error always names a quotient without a factor. *)
Lemma convert_error_no_factor (fuel : nat) :
  forall (u : Unit) (v : NUMBER) (w : Unit) (st st' : UnitSystem)
    (s t : string) (q : Dimension),
  convert fuel u v w st = (Raise (ValueError_cannot_convert s t q), st') ->
  conversion_factor st q = None.
Proof.
  induction fuel as [|fuel IH]; intros u v w st st' s t q;
    rewrite convert_unfold; (destruct (is_ w u); [discriminate|]);
    unfold bind, lift, get_system, raise;
    (pose proof (nce_dimension u) as Hu; destruct (dimension u) as [ds|e];
       [|intros [= -> _]; discriminate Hu]);
    (pose proof (nce_dimension w) as Hw; destruct (dimension w) as [dt|e];
       [|intros [= -> _]; discriminate Hw]);
    (case_decide;
       [pose proof (nce_do_convert u v w) as Hc; destruct (_do_convert u v w);
          [discriminate|intros [= -> _]; discriminate Hc]|]);
    destruct (conversion_factor st (dim_div dt ds)) as [factor|] eqn:Hcf.
  - discriminate.
  - pose proof (nce_Unit_str u) as Hs. destruct (Unit___str__ u); [|intros [= -> _]; discriminate Hs].
    pose proof (nce_Unit_str w) as Ht. destruct (Unit___str__ w); [|intros [= -> _]; discriminate Ht].
    intros [= _ _ <- _]. exact Hcf.
  - pose proof (nce_num_mul v (cast_like v (Quantity_value factor))) as Hm.
    destruct (num_mul _ _) as [cv|e]; [|intros [= -> _]; discriminate Hm].
    destruct (__mul__ u (Quantity_unit factor) st) as [[cu|e] st1] eqn:Hmul;
      apply mul_factor in Hmul as [Hf Hn].
    + intros Hrec. apply IH in Hrec. rewrite <- Hf. exact Hrec.
    + intros [= -> _]. discriminate Hn.
  - pose proof (nce_Unit_str u) as Hs. destruct (Unit___str__ u); [|intros [= -> _]; discriminate Hs].
    pose proof (nce_Unit_str w) as Ht. destruct (Unit___str__ w); [|intros [= -> _]; discriminate Ht].
    intros [= _ _ <- _]. exact Hcf.
Qed.


End CrossDimension3.

Section Dictionaries.
Context {K V : Type} (eqb : K -> K -> bool).

Lemma dict_get_Some (k : K) (d : dict K V) (v : V) :
  dict_get eqb k d = Some v -> exists k', In (k', v) d /\ eqb k' k = true.
Proof.
  induction d as [|[k0 v0] d IH]; simpl; [discriminate|].
  destruct (eqb k0 k) eqn:E.
  - intros [= <-]. exists k0. auto.
  - intros H. destruct (IH H) as (k' & Hin & Hk). exists k'. auto.
Qed.

Lemma dict_get_None (k : K) (d : dict K V) :
  dict_get eqb k d = None -> forall k' v, In (k', v) d -> eqb k' k = false.
Proof.
  induction d as [|[k0 v0] d IH]; simpl; [contradiction|].
  destruct (eqb k0 k) eqn:E; [discriminate|].
  intros H k' v [[= <- <-]|Hin]; [exact E|eauto].
Qed.

Lemma In_dict_set (k : K) (v : V) (d : dict K V) (k' : K) (v' : V) :
  In (k', v') (dict_set eqb k v d) ->
  In (k', v') d \/
  (v' = v /\ (k' = k \/ exists v0, In (k', v0) d /\ eqb k' k = true)).
Proof.
  induction d as [|[k0 v0] d IH]; simpl.
  - intros [[= <- <-]|[]]. right. auto.
  - destruct (eqb k0 k) eqn:E; simpl.
    + intros [[= <- <-]|Hin]; [|auto].
      right. split; [reflexivity|]. right. exists v0. auto.
    + intros [[= <- <-]|Hin]; [auto|].
      destruct (IH Hin) as [H|(-> & [->|(v1 & Hin1 & Hk)])]; [auto| |].
      * right. auto.
      * right. split; [reflexivity|]. right. exists v1. auto.
Qed.

Lemma dict_set_miss (k : K) (v : V) (d : dict K V) :
  dict_get eqb k d = None -> dict_set eqb k v d = d ++ [(k, v)].
Proof.
  induction d as [|[k0 v0] d IH]; simpl; [reflexivity|].
  destruct (eqb k0 k); [discriminate|]. intros H. rewrite IH by exact H. reflexivity.
Qed.

Lemma dict_get_set_same (k : K) (v : V) (d : dict K V) :
  eqb k k = true -> dict_get eqb k (dict_set eqb k v d) = Some v.
Proof.
  intros Hk. induction d as [|[k0 v0] d IH]; simpl.
  - rewrite Hk. reflexivity.
  - destruct (eqb k0 k) eqn:E; simpl; rewrite E; [reflexivity|exact IH].
Qed.

End Dictionaries.

Section Keys.
Context {DA : DimensionAlgebra}.

Lemma py_eqb_PTuple_cons (x y : pyval) (l l' : list pyval) :
  py_eqb (PTuple (x :: l)) (PTuple (y :: l')) =
  py_eqb x y && py_eqb (PTuple l) (PTuple l').
Proof. reflexivity. Qed.

Lemma py_eqb_refl (a : pyval) : py_eqb a a = true.
Proof.
  revert a. fix IH 1. intros [z|d|s|i|l]; simpl;
    try (apply bool_decide_eq_true_2; reflexivity).
  induction l as [|x l IHl]; [reflexivity|]. rewrite (IH x). exact IHl.
Qed.

Lemma id_key_eqb (u w : Unit) :
  py_eqb (id_key u) (id_key w) = true -> py_id u = py_id w.
Proof.
  unfold id_key. simpl. intros H. apply bool_decide_eq_true in H. lia.
Qed.

(** Two keys of [ComplexUnit.__new__] are equal only for the same
    identities, the same exponents and the same scale. *)
Lemma py_eqb_lookup_key (cs cs' : list (Unit * Z)) (sc sc' : option Decimal) :
  py_eqb (lookup_key cs sc) (lookup_key cs' sc') = true ->
  map (fun c => (py_id c.1, c.2)) cs = map (fun c => (py_id c.1, c.2)) cs'
  /\ sc = sc'.
Proof.
  unfold lookup_key. revert cs'.
  induction cs as [|[u p] cs IH]; intros [|[u' p'] cs'].
  - destruct sc, sc'; simpl; try discriminate; [|auto].
    rewrite andb_true_r. intros H. apply bool_decide_eq_true in H. subst. auto.
  - destruct sc; simpl; discriminate.
  - destruct sc'; simpl; discriminate.
  - cbn [map app]. rewrite py_eqb_PTuple_cons.
    intros H. apply andb_true_iff in H as [H1 H2].
    apply IH in H2 as [H2 ->]. split; [|reflexivity].
    rewrite py_eqb_PTuple_cons in H1. apply andb_true_iff in H1 as [Hi Hp].
    apply id_key_eqb in Hi. simpl in Hp. rewrite andb_true_r in Hp.
    apply bool_decide_eq_true in Hp. simpl. congruence.
Qed.

Lemma derived_key_eqb (u w : Unit) (k k' : pyval) :
  derived_key u = Some k -> derived_key w = Some k' ->
  py_eqb k k' = true -> k = k'.
Proof.
  destruct u, w; simpl; try discriminate; intros [= <-] [= <-]; simpl;
    rewrite ?andb_true_r; rewrite ?andb_true_iff; rewrite ?bool_decide_eq_true;
    rewrite ?andb_false_r; try discriminate; try (intros []; discriminate).
  all: intuition (try congruence).
  all: repeat match goal with
       | H : Z.of_nat _ = Z.of_nat _ |- _ => apply Nat2Z.inj in H
       end; unfold id_key; try congruence.
Qed.

End Keys.

Section WellFormed.
Context {DA : DimensionAlgebra} {DS : DecimalStr}.

Lemma allocated_inj (st : UnitSystem) (u w : Unit) :
  allocated st u -> allocated st w -> py_id u = py_id w -> u = w.
Proof. unfold allocated. intros Hu Hw E. rewrite E in Hu. congruence. Qed.

Lemma allocated_allocate (st : UnitSystem) (n u : Unit) :
  allocated st u -> allocated (allocate n st) u.
Proof. unfold allocated, allocate. simpl. apply lookup_app_l_Some. Qed.

Lemma allocated_new (st : UnitSystem) (n : Unit) :
  py_id n = fresh_id st -> allocated (allocate n st) n.
Proof.
  unfold allocated, allocate, fresh_id. simpl. intros ->.
  rewrite lookup_app_r by lia. rewrite Nat.sub_diag. reflexivity.
Qed.

Lemma wf_empty (cf : Dimension -> option Quantity) : wf (empty_system cf).
Proof. split; simpl; intros; try contradiction. rewrite lookup_nil in H. discriminate. Qed.

Lemma wf_allocate (st : UnitSystem) (n : Unit) :
  wf st -> py_id n = fresh_id st ->
  Forall (allocated st) (references n) -> built_by_new n ->
  wf (allocate n st).
Proof.
  intros [Ho Hp Hd Hc] Hid Hrefs Hb. split.
  - intros i u. unfold allocate at 1. simpl. intros H.
    apply lookup_app_Some in H as [H|[Hlen H]].
    + destruct (Ho i u H) as (Hi & Hr & Hbu). repeat split; [exact Hi| |exact Hbu].
      eapply Forall_impl; [exact Hr|]. intros x. apply allocated_allocate.
    + destruct (i - length (objects st))%nat as [|j] eqn:E; [|destruct j; discriminate].
      injection H as <-. repeat split; [|  |exact Hb].
      * unfold fresh_id in Hid. lia.
      * eapply Forall_impl; [exact Hrefs|]. intros x. apply allocated_allocate.
  - intros d u Hin. destruct (Hp d u Hin). split; [apply allocated_allocate|]; assumption.
  - intros k u Hin. destruct (Hd k u Hin). split; [apply allocated_allocate|]; assumption.
  - intros k u Hin. destruct (Hc k u Hin). split; [apply allocated_allocate|]; assumption.
Qed.

Lemma wf_set_primary (st : UnitSystem) (d : Dimension) (n : Unit) :
  wf st -> allocated st n -> dimension n = Ok d -> wf (set_primary d n st).
Proof.
  intros [Ho Hp Hd Hc] Hn Hdim. split; try assumption.
  intros d' u Hin. simpl in Hin. apply In_dict_set in Hin as [Hin|[-> [->|(v0 & Hin & E)]]].
  - exact (Hp d' u Hin).
  - split; assumption.
  - apply bool_decide_eq_true in E. subst. split; assumption.
Qed.

Lemma wf_set_derived (st : UnitSystem) (k : pyval) (n : Unit) :
  wf st -> allocated st n -> derived_key n = Some k -> wf (set_derived k n st).
Proof.
  intros [Ho Hp Hd Hc] Hn Hk. split; try assumption.
  intros k' u Hin. simpl in Hin. apply In_dict_set in Hin as [Hin|[-> [->|(v0 & Hin & E)]]].
  - exact (Hd k' u Hin).
  - split; assumption.
  - destruct (Hd k' v0 Hin) as [_ Hk0].
    rewrite (derived_key_eqb v0 n k' k Hk0 Hk E). split; assumption.
Qed.

Lemma wf_set_complex (st : UnitSystem) (k : pyval) (n : Unit) :
  wf st -> allocated st n -> complex_key n = Some k ->
  dict_get py_eqb k (__complex_units__ st) = None ->
  wf (set_complex k n st).
Proof.
  intros [Ho Hp Hd Hc] Hn Hk Hmiss. split; try assumption.
  intros k' u Hin. simpl in Hin. apply In_dict_set in Hin as [Hin|[-> [->|(v0 & Hin & E)]]].
  - exact (Hc k' u Hin).
  - split; assumption.
  - rewrite (dict_get_None py_eqb k _ Hmiss k' v0 Hin) in E. discriminate.
Qed.

Lemma allocated_references (st : UnitSystem) (u : Unit) :
  wf st -> allocated st u -> Forall (allocated st) (references u).
Proof. intros Hwf Hu. apply (wf_objects st Hwf _ _ Hu). Qed.

Lemma allocated_built (st : UnitSystem) (u : Unit) :
  wf st -> allocated st u -> built_by_new u.
Proof. intros Hwf Hu. apply (wf_objects st Hwf _ _ Hu). Qed.

(** What every constructor guarantees: the invariant, the objects that
    were there, and the object it returns. *)
Lemma PrimaryUnit_new_wf (name : option string) (d : Dimension)
  (st st' : UnitSystem) (r : result Unit) :
  wf st -> PrimaryUnit___new__ name d st = (r, st') ->
  wf st' /\ (forall x, allocated st x -> allocated st' x) /\
  (forall u, r = Ok u -> allocated st' u).
Proof.
  intros Hwf. unfold PrimaryUnit___new__.
  destruct (dict_get _ _ _) as [u0|] eqn:Hget.
  - apply dict_get_Some in Hget as (k' & Hin & _).
    destruct (wf_primary st Hwf _ _ Hin) as [Ha _].
    destruct (dimension u0); [case_decide|]; intros [= <- <-];
      ((split; [|split]); [exact Hwf|auto|]); intros u [= <-]; exact Ha.
  - intros [= <- <-].
    set (n := PrimaryUnit (fresh_id st) (truthy_name name) d).
    assert (Hwf1 : wf (allocate n st)) by (apply wf_allocate; [exact Hwf|reflexivity|constructor|exact I]).
    assert (Hn : allocated (allocate n st) n) by (apply allocated_new; reflexivity).
    split; [|split].
    + apply wf_set_primary; [exact Hwf1|exact Hn|reflexivity].
    + intros x Hx. apply (allocated_allocate st n x Hx).
    + intros u [= <-]. exact Hn.
Qed.

Lemma DerivedUnit_new_wf (a : unit_or_quantity) (ratio_ : Decimal)
  (name : option string) (st st' : UnitSystem) (r : result Unit) :
  wf st ->
  allocated st (match a with AUnit u => u | AQuantity q => Quantity_unit q end) ->
  DerivedUnit___new__ a ratio_ name st = (r, st') ->
  wf st' /\ (forall x, allocated st x -> allocated st' x) /\
  (forall u, r = Ok u -> allocated st' u).
Proof.
  intros Hwf Ha. unfold DerivedUnit___new__.
  set (pu := match a with AUnit u => u | AQuantity q => Quantity_unit q end) in *.
  set (r0 := match a with AUnit u => ratio_ | AQuantity q => Quantity_value q end).
  replace (match a with AQuantity q => (Quantity_unit q, Quantity_value q)
                      | AUnit u => (u, ratio_) end) with (pu, r0)
    by (destruct a; reflexivity).
  assert (Hflat : exists p r1,
    match pu with DerivedUnit _ _ p r => (p, (r0 * r)%Qc) | _ => (pu, r0) end = (p, r1)
    /\ allocated st p).
  { destruct pu eqn:E; try (eexists _, _; split; [reflexivity|exact Ha]).
    eexists _, _. split; [reflexivity|].
    pose proof (allocated_references st _ Hwf Ha) as Hr. simpl in Hr.
    inversion Hr; assumption. }
  destruct Hflat as (p & r1 & -> & Hp).
  destruct (dict_get _ _ _) as [u0|] eqn:Hget.
  - apply dict_get_Some in Hget as (k' & Hin & _).
    destruct (wf_derived st Hwf _ _ Hin) as [Hu0 _].
    intros [= <- <-]. (split; [|split]); [exact Hwf|auto|]. intros u [= <-]. exact Hu0.
  - intros [= <- <-].
    set (n := DerivedUnit (fresh_id st) (truthy_name name) p r1).
    assert (Hwf1 : wf (allocate n st)).
    { apply wf_allocate; [exact Hwf|reflexivity| |exact I]. simpl. constructor; [exact Hp|constructor]. }
    assert (Hn : allocated (allocate n st) n) by (apply allocated_new; reflexivity).
    split; [|split].
    + apply wf_set_derived; [exact Hwf1|exact Hn|reflexivity].
    + intros x Hx. apply (allocated_allocate st n x Hx).
    + intros u [= <-]. exact Hn.
Qed.

Lemma OffsetDerivedUnit_new_wf (pu : Unit) (ratio_ offset : Decimal)
  (name : option string) (st st' : UnitSystem) (r : result Unit) :
  wf st -> allocated st pu ->
  OffsetDerivedUnit___new__ pu ratio_ offset name st = (r, st') ->
  wf st' /\ (forall x, allocated st x -> allocated st' x) /\
  (forall u, r = Ok u -> allocated st' u).
Proof.
  intros Hwf Ha. unfold OffsetDerivedUnit___new__, bind, lift.
  destruct (match pu with DerivedUnit _ _ p _ => _ | _ => _ end) as [[p r1]|e] eqn:Hflat.
  2:{ intros [= <- <-]. (split; [|split]); [exact Hwf|auto|discriminate]. }
  assert (Hp : allocated st p).
  { destruct pu as [|j m q rr| | |]; try (injection Hflat as <- _; exact Ha).
    pose proof (allocated_references st _ Hwf Ha) as Hr. simpl in Hr.
    destruct (ratio q); [|discriminate]. injection Hflat as <- _.
    inversion Hr; assumption. }
  destruct (dict_get _ _ _) as [u0|] eqn:Hget.
  - apply dict_get_Some in Hget as (k' & Hin & _).
    destruct (wf_derived st Hwf _ _ Hin) as [Hu0 _].
    intros [= <- <-]. (split; [|split]); [exact Hwf|auto|]. intros u [= <-]. exact Hu0.
  - intros [= <- <-].
    set (n := OffsetDerivedUnit (fresh_id st) (truthy_name name) p r1 offset).
    assert (Hwf1 : wf (allocate n st)).
    { apply wf_allocate; [exact Hwf|reflexivity| |exact I]. simpl. constructor; [exact Hp|constructor]. }
    assert (Hn : allocated (allocate n st) n) by (apply allocated_new; reflexivity).
    split; [|split].
    + apply wf_set_derived; [exact Hwf1|exact Hn|reflexivity].
    + intros x Hx. apply (allocated_allocate st n x Hx).
    + intros u [= <-]. exact Hn.
Qed.

Lemma DiffDerivedUnit_new_wf (ou : Unit) (name : option string)
  (st st' : UnitSystem) (r : result Unit) :
  wf st -> allocated st ou ->
  DiffDerivedUnit___new__ ou name st = (r, st') ->
  wf st' /\ (forall x, allocated st x -> allocated st' x) /\
  (forall u, r = Ok u -> allocated st' u).
Proof.
  intros Hwf Ha. unfold DiffDerivedUnit___new__.
  destruct ou as [| |i n p r0 o| |];
    try (unfold bind, lift, raise; destruct (Unit___str__ _); intros [= <- <-];
         (split; [|split; [auto|discriminate]]); exact Hwf).
  destruct (dict_get _ _ _) as [u0|] eqn:Hget.
  - apply dict_get_Some in Hget as (k' & Hin & _).
    destruct (wf_derived st Hwf _ _ Hin) as [Hu0 _].
    intros [= <- <-]. (split; [|split]); [exact Hwf|auto|]. intros u [= <-]. exact Hu0.
  - intros [= <- <-].
    set (ou := OffsetDerivedUnit i n p r0 o) in *.
    set (n' := DiffDerivedUnit (fresh_id st) (truthy_name name) ou).
    assert (Hwf1 : wf (allocate n' st)).
    { apply wf_allocate; [exact Hwf|reflexivity| |reflexivity]. simpl. constructor; [exact Ha|constructor]. }
    assert (Hn : allocated (allocate n' st) n') by (apply allocated_new; reflexivity).
    split; [|split].
    + apply wf_set_derived; [exact Hwf1|exact Hn|reflexivity].
    + intros x Hx. apply (allocated_allocate st n' x Hx).
    + intros u [= <-]. exact Hn.
Qed.

End WellFormed.

Section ComplexConstruction.
Context {DA : DimensionAlgebra} {DS : DecimalStr}.

Lemma forallb_multiplicative (cs : list (Unit * Z)) :
  forallb (fun '(u, _) => _is_multiplicative u) cs = true <->
  Forall (fun c => _is_multiplicative c.1 = true) cs.
Proof.
  induction cs as [|[u p] cs IH]; simpl.
  - split; [constructor|reflexivity].
  - rewrite andb_true_iff, IH. split.
    + intros [H1 H2]. constructor; assumption.
    + intros H. inversion H; subst. auto.
Qed.

(** Among the objects of a system, identities determine components. *)
Lemma same_ids_same_components (st : UnitSystem) (cs cs' : list (Unit * Z)) :
  Forall (allocated st) (map fst cs) -> Forall (allocated st) (map fst cs') ->
  map (fun c => (py_id c.1, c.2)) cs = map (fun c => (py_id c.1, c.2)) cs' ->
  cs = cs'.
Proof.
  revert cs'. induction cs as [|[u p] cs IH]; intros [|[u' p'] cs']; simpl;
    try discriminate; [reflexivity|].
  intros H1 H2 [= Hid -> Hrest]. inversion H1; inversion H2; subst.
  f_equal; [|apply IH; assumption].
  f_equal. eapply allocated_inj; eassumption.
Qed.

Lemma to_components_allocated (st : UnitSystem) (u : Unit) (power : Z) :
  wf st -> allocated st u ->
  Forall (allocated st) (map fst (_to_components u power)).
Proof.
  intros Hwf Hu. pose proof (allocated_references st u Hwf Hu) as Hr.
  destruct u as [| | | |i n cs sc]; simpl; try (constructor; [exact Hu|constructor]).
  destruct (_ || _); [constructor; [exact Hu|constructor]|].
  simpl in Hr. case_decide; [exact Hr|].
  rewrite map_map. erewrite map_ext; [exact Hr|]. intros [c p]; reflexivity.
Qed.

Lemma to_components_multiplicative (st : UnitSystem) (u : Unit) (power : Z) :
  wf st -> allocated st u -> _is_multiplicative u = true ->
  Forall (fun c => _is_multiplicative c.1 = true) (_to_components u power).
Proof.
  intros Hwf Hu Hm. pose proof (allocated_built st u Hwf Hu) as Hb.
  destruct u as [| | | |i n cs sc]; simpl; try (constructor; [exact Hm|constructor]).
  destruct (_ || _); [constructor; [exact Hm|constructor]|].
  simpl in Hb. case_decide; [exact Hb|].
  apply Forall_map. eapply Forall_impl; [exact Hb|]. intros [c p]; auto.
Qed.

(** The core of [ComplexUnit.__new__], after the arguments are decoded. *)
Lemma ComplexUnit_new_core (cs : list (Unit * Z)) (sc : option Decimal)
  (name : option string) (st st' : UnitSystem) (r : result Unit) :
  wf st -> Forall (allocated st) (map fst cs) ->
  match dict_get py_eqb (lookup_key cs sc) (__complex_units__ st) with
  | Some d => (Ok d, st)
  | None =>
      if forallb (fun '(u, _) => _is_multiplicative u) cs then
        let n := ComplexUnit (fresh_id st) (truthy_name name) cs sc in
        (Ok n, set_complex (lookup_key cs sc) n (allocate n st))
      else (Raise AssertionError, st)
  end = (r, st') ->
  wf st' /\ (forall x, allocated st x -> allocated st' x) /\
  (forall u, r = Ok u ->
     allocated st' u /\ exists i nm, u = ComplexUnit i nm cs sc) /\
  (forall e, r = Raise e ->
     e = AssertionError /\ st' = st /\
     ~ Forall (fun c => _is_multiplicative c.1 = true) cs) /\
  (dict_get py_eqb (lookup_key cs sc) (__complex_units__ st) = None ->
   forall u, r = Ok u ->
     u = ComplexUnit (fresh_id st) (truthy_name name) cs sc).
Proof.
  intros Hwf Hcs.
  destruct (dict_get _ _ _) as [u0|] eqn:Hget.
  - intros [= <- <-]. apply dict_get_Some in Hget as (k' & Hin & E).
    destruct (wf_complex st Hwf _ _ Hin) as [Hu0 Hk].
    split; [exact Hwf|]. split; [auto|]. split; [|split; [discriminate|discriminate]].
    intros u [= <-]. split; [exact Hu0|].
    destruct u0 as [| | | |i nm cs0 sc0]; try discriminate.
    injection Hk as <-. apply py_eqb_lookup_key in E as [Hids ->].
    exists i, nm. f_equal.
    eapply same_ids_same_components; [|exact Hcs|exact Hids].
    exact (allocated_references st _ Hwf Hu0).
  - destruct (forallb _ cs) eqn:Hm.
    + intros [= <- <-].
      set (n := ComplexUnit (fresh_id st) (truthy_name name) cs sc).
      assert (Hwf1 : wf (allocate n st)).
      { apply wf_allocate; [exact Hwf|reflexivity|exact Hcs|].
        apply forallb_multiplicative. exact Hm. }
      assert (Hn : allocated (allocate n st) n) by (apply allocated_new; reflexivity).
      split; [apply wf_set_complex; [exact Hwf1|exact Hn|reflexivity|exact Hget]|].
      split; [intros x Hx; apply (allocated_allocate st n x Hx)|].
      split; [|split; [discriminate|]].
      * intros u [= <-]. split; [exact Hn|]. eexists _, _. reflexivity.
      * intros _ u [= <-]. reflexivity.
    + intros [= <- <-]. split; [exact Hwf|]. split; [auto|].
      split; [discriminate|]. split; [|discriminate].
      intros e [= <-]. split; [reflexivity|]. split; [reflexivity|].
      rewrite <- forallb_multiplicative, Hm. discriminate.
Qed.

Lemma ComplexUnit_new_components (cs : list (Unit * Z)) (name : option string)
  (st st' : UnitSystem) (r : result Unit) :
  wf st -> Forall (allocated st) (map fst cs) ->
  ComplexUnit___new__ (FromComponents cs) name st = (r, st') ->
  wf st' /\ (forall x, allocated st x -> allocated st' x) /\
  (forall u, r = Ok u ->
     allocated st' u /\ exists i nm, u = ComplexUnit i nm cs None) /\
  (forall e, r = Raise e ->
     e = AssertionError /\ st' = st /\
     ~ Forall (fun c => _is_multiplicative c.1 = true) cs) /\
  (dict_get py_eqb (lookup_key cs None) (__complex_units__ st) = None ->
   forall u, r = Ok u ->
     u = ComplexUnit (fresh_id st) (truthy_name name) cs None).
Proof. intros Hwf Hcs. apply ComplexUnit_new_core; assumption. Qed.

Lemma ComplexUnit_new_quantity (q : Quantity) (name : option string)
  (st st' : UnitSystem) (r : result Unit) :
  wf st -> allocated st (Quantity_unit q) ->
  ComplexUnit___new__ (FromQuantity q) name st = (r, st') ->
  wf st' /\ (forall x, allocated st x -> allocated st' x) /\
  (forall u, r = Ok u ->
     allocated st' u /\
     exists i nm, u = ComplexUnit i nm (_to_components (Quantity_unit q) 1)
                        (Some (Quantity_value q))).
Proof.
  intros Hwf Hq H.
  apply ComplexUnit_new_core in H as (H1 & H2 & H3 & _); auto.
  apply to_components_allocated; assumption.
Qed.

End ComplexConstruction.

Section Composition.
Context {DA : DimensionAlgebra} {DS : DecimalStr}.

(** Claim C6.  For every object [d] of class [DerivedUnit] in a well-formed
    unit system and every power [n], [d ** n] returns a complex unit whose
    only component is [(d, 2)]: the exponent does not depend on [n]. *)
Theorem DerivedUnit_pow_exponent_two (st : UnitSystem) (d : Unit) (n : Z) :
  wf st -> allocated st d -> class_of d = cDerivedUnit ->
  exists i nm st',
    __pow__ d n st = (Ok (ComplexUnit i nm [(d, 2)] None), st').
Proof.
  intros Hwf Hd Hc.
  destruct d as [|j m p r| | |]; try discriminate. cbn [__pow__].
  unfold DerivedUnit___pow__.
  destruct (ComplexUnit___new__ _ None st) as [res st'] eqn:E.
  apply ComplexUnit_new_components in E as (_ & _ & Hok & Herr & _);
    [|exact Hwf|constructor; [exact Hd|constructor]].
  destruct res as [u|e].
  - destruct (Hok u eq_refl) as (_ & i & nm & ->). exists i, nm, st'. reflexivity.
  - destruct (Herr e eq_refl) as (_ & _ & Hn). exfalso. apply Hn.
    constructor; [reflexivity|constructor].
Qed.

(** The offset class inherits [DerivedUnit.__pow__], and the assertion of
    [ComplexUnit.__new__] rejects the component. *)
Lemma OffsetDerivedUnit_pow_rejected (st : UnitSystem) (o : Unit) (n : Z) :
  wf st -> allocated st o -> class_of o = cOffsetDerivedUnit ->
  __pow__ o n st = (Raise AssertionError, st).
Proof.
  intros Hwf Ho Hc.
  destruct o as [| |j m p r off| |]; try discriminate. cbn [__pow__].
  unfold DerivedUnit___pow__.
  destruct (ComplexUnit___new__ _ None st) as [res st'] eqn:E.
  apply ComplexUnit_new_components in E as (Hwf' & _ & Hok & Herr & _);
    [|exact Hwf|constructor; [exact Ho|constructor]].
  destruct res as [u|e].
  - destruct (Hok u eq_refl) as (Hu & i & nm & ->).
    pose proof (allocated_built _ _ Hwf' Hu) as Hb. simpl in Hb.
    apply Forall_inv in Hb. discriminate Hb.
  - destruct (Herr e eq_refl) as (-> & -> & _). reflexivity.
Qed.

Lemma diff_of_offset (st : UnitSystem) (o : Unit) :
  wf st -> allocated st o -> class_of o = cOffsetDerivedUnit ->
  exists i nm st1, diff o st = (Ok (DiffDerivedUnit i nm o), st1) /\
    wf st1 /\ (forall x, allocated st x -> allocated st1 x) /\
    allocated st1 (DiffDerivedUnit i nm o).
Proof.
  intros Hwf Ho Hc. destruct (diff o st) as [r st1] eqn:E.
  pose proof (DiffDerivedUnit_new_wf o None st st1 r Hwf Ho E) as (Hwf1 & Hmono & Hres).
  unfold diff, DiffDerivedUnit___new__ in E.
  destruct o as [| |j m p r0 off| |]; try discriminate.
  destruct (dict_get _ _ _) as [u0|] eqn:Hget.
  - injection E as <- <-. apply dict_get_Some in Hget as (k' & Hin & Ek).
    destruct (wf_derived st Hwf _ _ Hin) as [Hu0 Hk].
    destruct u0 as [|a b c e|a b c e f|a b ou|]; try discriminate;
      injection Hk as <-; simpl in Ek; rewrite ?andb_false_r in Ek; try discriminate.
    rewrite andb_true_r in Ek. rename Ek into Ei.
    apply bool_decide_eq_true in Ei. apply Nat2Z.inj in Ei.
    pose proof (allocated_references st _ Hwf Hu0) as Hr. simpl in Hr.
    apply Forall_inv in Hr. rename Hr into Hou.
    assert (ou = OffsetDerivedUnit j m p r0 off) as ->
      by (eapply allocated_inj; [exact Hou|exact Ho|exact Ei]).
    exists a, b, st. auto.
  - injection E as <- <-. eexists _, _, _. split; [reflexivity|].
    split; [exact Hwf1|]. split; [exact Hmono|]. apply Hres. reflexivity.
Qed.


End Composition.

Section Power.
Context {DA : DimensionAlgebra} {DS : DecimalStr}.


End Power.

Section Components.
Context {DA : DimensionAlgebra}.

Lemma Forall_fst {A B : Type} (P : A -> Prop) (l : list (A * B)) :
  Forall P (map fst l) <-> Forall (fun c => P c.1) l.
Proof. apply Forall_map. Qed.

Lemma to_components_neg (b : Unit) :
  _to_components b (-1) = map (fun c => (c.1, - c.2)) (_to_components b 1).
Proof.
  destruct b as [| | | |i n cs sc]; try reflexivity. simpl.
  destruct (_ || _); [reflexivity|].
  apply map_ext. intros [u p]. simpl. f_equal. lia.
Qed.

Lemma dict_set_nonempty (u : Unit) (p : Z) (d : dict Unit Z) :
  dict_set is_ u p d <> [].
Proof. destruct d as [|[k v] d]; simpl; [discriminate|]. destruct (is_ k u); discriminate. Qed.

Lemma fold_add_nonempty (l : list (Unit * Z)) (d : dict Unit Z) :
  l <> [] \/ d <> [] ->
  fold_left (fun d '(u, p) => dict_add u p d) l d <> [].
Proof.
  revert d. induction l as [|[u p] l IH]; simpl; intros d [H|H]; try congruence.
  - apply IH. right. apply dict_set_nonempty.
  - apply IH. right. apply dict_set_nonempty.
Qed.

Lemma to_components_unnamed (j : nat) (cs : list (Unit * Z)) :
  _to_components (ComplexUnit j None cs None) 1 = cs.
Proof.
  unfold _to_components.
  rewrite (bool_decide_eq_false_2 (is_Some None)) by (intros [? ?]; discriminate).
  rewrite (bool_decide_eq_false_2 (default 1%Qc None <> 1%Qc)) by (intros H; apply H; reflexivity).
  reflexivity.
Qed.

Lemma to_components_named (j : nat) (s : string) (cs : list (Unit * Z))
  (sc : option Decimal) (power : Z) :
  _to_components (ComplexUnit j (Some s) cs sc) power
  = [(ComplexUnit j (Some s) cs sc, power)].
Proof.
  unfold _to_components.
  rewrite (bool_decide_eq_true_2 (is_Some (Some s))) by eauto. reflexivity.
Qed.

End Components.

Section WeightedProduct.
Context {DA : DimensionAlgebra}.
Variables (G : Type) (mul : G -> G -> G) (pow : G -> Z -> G) (e : G).
Variables (w : Unit -> G) (good : Unit -> Prop).
Hypothesis mul_comm : forall a b, mul a b = mul b a.
Hypothesis mul_assoc : forall a b c, mul a (mul b c) = mul (mul a b) c.
Hypothesis e_neutral : forall a, mul e a = a.
Hypothesis pow_0 : forall u, good u -> pow (w u) 0 = e.
Hypothesis pow_1 : forall u, good u -> pow (w u) 1 = w u.
Hypothesis pow_add : forall u m n, good u ->
  pow (w u) (m + n) = mul (pow (w u) m) (pow (w u) n).
Hypothesis good_inj : forall u v, good u -> good v -> py_id u = py_id v -> u = v.


Lemma e_neutral_r (a : G) : mul a e = a.
Proof. rewrite mul_comm. apply e_neutral. Qed.

Lemma wprod_app (l1 l2 : list (Unit * Z)) :
  weighted_product mul pow e w (l1 ++ l2) = mul (weighted_product mul pow e w l1) (weighted_product mul pow e w l2).
Proof.
  induction l1 as [|c l1 IH]; simpl; [symmetry; apply e_neutral|].
  rewrite IH. apply mul_assoc.
Qed.

Lemma dict_set_keys (P : Unit -> Prop) (u : Unit) (p : Z) (d : dict Unit Z) :
  P u -> Forall P (map fst d) -> Forall P (map fst (dict_set is_ u p d)).
Proof.
  intros Hu. induction d as [|[k v] d IH]; simpl; intros Hd.
  - constructor; [exact Hu|constructor].
  - inversion Hd; subst. destruct (is_ k u); simpl; constructor; auto.
Qed.

Lemma dict_add_keys (P : Unit -> Prop) (u : Unit) (p : Z) (d : dict Unit Z) :
  P u -> Forall P (map fst d) -> Forall P (map fst (dict_add u p d)).
Proof. apply dict_set_keys. Qed.

Lemma fold_add_keys (P : Unit -> Prop) (l : list (Unit * Z)) (d : dict Unit Z) :
  Forall P (map fst l) -> Forall P (map fst d) ->
  Forall P (map fst (fold_left (fun d '(u, p) => dict_add u p d) l d)).
Proof.
  revert d. induction l as [|[u p] l IH]; simpl; intros d Hl Hd; [exact Hd|].
  inversion Hl; subst. apply IH; [assumption|]. apply dict_add_keys; assumption.
Qed.

Lemma dict_of_pairs_keys (P : Unit -> Prop) (l : list (Unit * Z)) :
  Forall P (map fst l) -> Forall P (map fst (dict_of_pairs l)).
Proof.
  unfold dict_of_pairs. intros Hl.
  assert (H : forall d : dict Unit Z, Forall P (map fst d) ->
    Forall P (map fst (fold_left (fun d '(u, p) => dict_set is_ u p d) l d))).
  { induction l as [|[u p] l IH]; simpl; intros d Hd; [exact Hd|].
    inversion Hl; subst. apply IH; [assumption|]. apply dict_set_keys; assumption. }
  apply H. constructor.
Qed.

Lemma wprod_dict_add (u : Unit) (p : Z) (d : dict Unit Z) :
  good u -> Forall good (map fst d) ->
  weighted_product mul pow e w (dict_add u p d) = mul (weighted_product mul pow e w d) (pow (w u) p).
Proof.
  intros Hu. unfold dict_add. induction d as [|[k v] d IH]; simpl; intros Hd.
  - rewrite e_neutral, e_neutral_r, Z.add_0_l. reflexivity.
  - inversion Hd as [|? ? Hk Hd']; subst. destruct (is_ k u) eqn:E; simpl.
    + apply is_true_iff in E. apply (good_inj _ _ Hk Hu) in E. subst k.
      rewrite pow_add by exact Hu.
      rewrite <- !mul_assoc. f_equal. apply mul_comm.
    + rewrite IH by exact Hd'. apply mul_assoc.
Qed.

Lemma wprod_fold_add (l : list (Unit * Z)) (d : dict Unit Z) :
  Forall good (map fst l) -> Forall good (map fst d) ->
  weighted_product mul pow e w (fold_left (fun d '(u, p) => dict_add u p d) l d)
  = mul (weighted_product mul pow e w d) (weighted_product mul pow e w l).
Proof.
  revert d. induction l as [|[u p] l IH]; simpl; intros d Hl Hd.
  - symmetry. apply e_neutral_r.
  - inversion Hl; subst. rewrite IH; [|assumption|apply dict_add_keys; assumption].
    rewrite wprod_dict_add by assumption. symmetry. apply mul_assoc.
Qed.

Lemma dict_set_map_values (g : Z -> Z) (u : Unit) (p : Z) (d : dict Unit Z) :
  dict_set is_ u (g p) (map (fun c => (c.1, g c.2)) d)
  = map (fun c => (c.1, g c.2)) (dict_set is_ u p d).
Proof.
  induction d as [|[k v] d IH]; simpl; [reflexivity|].
  destruct (is_ k u); simpl; [reflexivity|]. rewrite IH. reflexivity.
Qed.

Lemma dict_of_pairs_map_values (g : Z -> Z) (l : list (Unit * Z)) :
  dict_of_pairs (map (fun c => (c.1, g c.2)) l)
  = map (fun c => (c.1, g c.2)) (dict_of_pairs l).
Proof.
  unfold dict_of_pairs.
  assert (H : forall d : dict Unit Z,
    fold_left (fun d '(u, p) => dict_set is_ u p d)
      (map (fun c => (c.1, g c.2)) l) (map (fun c => (c.1, g c.2)) d)
    = map (fun c => (c.1, g c.2))
        (fold_left (fun d '(u, p) => dict_set is_ u p d) l d)).
  { induction l as [|[u p] l IH]; simpl; intros d; [reflexivity|].
    rewrite dict_set_map_values. apply IH. }
  apply (H []).
Qed.

Lemma wprod_negate (d : dict Unit Z) :
  Forall good (map fst d) ->
  mul (weighted_product mul pow e w (map (fun c => (c.1, - c.2)) d)) (weighted_product mul pow e w d) = e.
Proof.
  induction d as [|[k v] d IH]; simpl; intros Hd; [apply e_neutral|].
  inversion Hd as [|? ? Hk Hd']; subst.
  transitivity (mul (mul (pow (w k) (- v)) (pow (w k) v))
                    (mul (weighted_product mul pow e w (map (fun c => (c.1, - c.2)) d)) (weighted_product mul pow e w d))).
  - rewrite <- !mul_assoc. f_equal. rewrite !mul_assoc. f_equal. apply mul_comm.
  - rewrite IH by exact Hd'. rewrite <- pow_add by exact Hk.
    replace (- v + v) with 0 by lia. rewrite pow_0 by exact Hk. apply e_neutral.
Qed.

(** [reduce(operator.mul, ...)] over the powers is the weighted product. *)
Lemma reduce_weighted_product (cs : list (Unit * Z)) :
  cs <> [] ->
  reduce_mul mul (map (fun c => pow (w c.1) c.2) cs) = Ok (weighted_product mul pow e w cs).
Proof.
  destruct cs as [|c cs]; [congruence|]. intros _. simpl. f_equal.
  generalize (pow (w c.1) c.2) as x. induction cs as [|c' cs IH]; simpl; intros x.
  - symmetry. apply e_neutral_r.
  - rewrite IH. symmetry. apply mul_assoc.
Qed.

(** The components of [(a * b) / b], when [a * b] is flattened. *)
Lemma wprod_mul_div_flat (ca cb : list (Unit * Z)) :
  Forall good (map fst ca) -> Forall good (map fst cb) ->
  weighted_product mul pow e w (fold_left (fun d '(u, p) => dict_add u p d)
           (fold_left (fun d '(u, p) => dict_add u p d) ca (dict_of_pairs cb))
           (dict_of_pairs (map (fun c => (c.1, - c.2)) cb)))
  = weighted_product mul pow e w ca.
Proof.
  intros Ha Hb.
  assert (Hdb : Forall good (map fst (dict_of_pairs cb)))
    by (apply dict_of_pairs_keys; exact Hb).
  rewrite dict_of_pairs_map_values.
  rewrite wprod_fold_add.
  - rewrite wprod_fold_add by assumption.
    rewrite mul_assoc, wprod_negate by exact Hdb. apply e_neutral.
  - apply fold_add_keys; assumption.
  - rewrite map_map. simpl. rewrite <- (map_map fst (fun x => x)), map_id. exact Hdb.
Qed.

(** The same when [a * b] enters the quotient as one atom [x]. *)
Lemma wprod_mul_div_atom (ca cb : list (Unit * Z)) (x : Unit) :
  Forall good (map fst ca) -> Forall good (map fst cb) -> good x ->
  w x = weighted_product mul pow e w (fold_left (fun d '(u, p) => dict_add u p d) ca (dict_of_pairs cb)) ->
  weighted_product mul pow e w (fold_left (fun d '(u, p) => dict_add u p d) [(x, 1)]
           (dict_of_pairs (map (fun c => (c.1, - c.2)) cb)))
  = weighted_product mul pow e w ca.
Proof.
  intros Ha Hb Hx Hwx.
  assert (Hdb : Forall good (map fst (dict_of_pairs cb)))
    by (apply dict_of_pairs_keys; exact Hb).
  rewrite dict_of_pairs_map_values. simpl.
  rewrite wprod_dict_add; [|exact Hx|].
  - rewrite pow_1, Hwx by exact Hx. rewrite wprod_fold_add by assumption.
    rewrite mul_assoc, wprod_negate by exact Hdb. apply e_neutral.
  - rewrite map_map. simpl. rewrite <- (map_map fst (fun x => x)), map_id. exact Hdb.
Qed.

(** The components of [(a * b) / b] weigh what the components of [a] do. *)
Lemma wprod_closure (a b : Unit) (j : nat) (nm : option string) :
  let ca := _to_components a 1 in
  let M1 := fold_left (fun d '(u, p) => dict_add u p d) ca
              (dict_of_pairs (_to_components b 1)) in
  let ab := ComplexUnit j nm M1 None in
  let M2 := fold_left (fun d '(u, p) => dict_add u p d) (_to_components ab 1)
              (dict_of_pairs (_to_components b (-1))) in
  Forall good (map fst ca) -> Forall good (map fst (_to_components b 1)) ->
  ca <> [] ->
  (Forall good (map fst M1) -> M1 <> [] -> good ab /\ w ab = weighted_product mul pow e w M1) ->
  weighted_product mul pow e w M2 = weighted_product mul pow e w ca /\ M2 <> [] /\ Forall good (map fst M2).
Proof.
  intros ca M1 ab M2 Ha Hb Hne Hab.
  assert (Hdb : Forall good (map fst (dict_of_pairs (_to_components b 1))))
    by (apply dict_of_pairs_keys; exact Hb).
  assert (HM1 : Forall good (map fst M1)) by (apply fold_add_keys; assumption).
  assert (HM1ne : M1 <> []) by (apply fold_add_nonempty; left; exact Hne).
  assert (Hdb' : Forall good (map fst (dict_of_pairs (_to_components b (-1))))).
  { apply dict_of_pairs_keys. rewrite to_components_neg, map_map. simpl.
    rewrite <- (map_map fst (fun x => x)), map_id. exact Hb. }
  subst M2. destruct nm as [s|].
  - destruct (Hab HM1 HM1ne) as [Hgab Hwab]. subst ab.
    rewrite to_components_named. split; [|split].
    + rewrite to_components_neg. apply wprod_mul_div_atom; assumption.
    + apply fold_add_nonempty. left. discriminate.
    + apply fold_add_keys; [|exact Hdb']. constructor; [exact Hgab|constructor].
  - subst ab. rewrite to_components_unnamed. split; [|split].
    + rewrite to_components_neg. apply wprod_mul_div_flat; assumption.
    + apply fold_add_nonempty. left. exact HM1ne.
    + apply fold_add_keys; assumption.
Qed.

End WeightedProduct.

Section RationalPowers.

Lemma Qc_nonzero (x : Qc) : x <> 0%Qc -> ~ (this x == 0)%Q.
Proof. intros Hx H. apply Hx. apply Qc_is_canon. exact H. Qed.

Lemma Qc_powZ_0 (x : Qc) : Qc_powZ x 0 = 1%Qc.
Proof. reflexivity. Qed.

Lemma Qc_powZ_1 (x : Qc) : Qc_powZ x 1 = x.
Proof. apply Qc_is_canon. unfold Qc_powZ. simpl. apply Qred_correct. Qed.

Lemma Qc_powZ_add (x : Qc) (m n : Z) :
  x <> 0%Qc -> Qc_powZ x (m + n) = (Qc_powZ x m * Qc_powZ x n)%Qc.
Proof.
  intros Hx. apply Qc_is_canon. unfold Qc_powZ, Qcmult. cbn [this Q2Qc].
  rewrite !Qred_correct. apply Qpower_plus. apply Qc_nonzero. exact Hx.
Qed.

Lemma Qc_powZ_nonzero (x : Qc) (m : Z) : x <> 0%Qc -> Qc_powZ x m <> 0%Qc.
Proof.
  intros Hx H. apply (Qpower_not_0 (this x) m (Qc_nonzero x Hx)).
  apply (f_equal this) in H. unfold Qc_powZ in H. cbn [this Q2Qc] in H.
  rewrite <- (Qred_correct (this x ^ m)). rewrite H. reflexivity.
Qed.

End RationalPowers.

Section Attributes.
Context {DA : DimensionAlgebra} {DS : DecimalStr}.

Lemma ratio_value_ok (u : Unit) (r : Decimal) : ratio u = Ok r -> ratio_value u = r.
Proof. unfold ratio_value. intros ->. reflexivity. Qed.

Lemma ratio_nonzero_value (u : Unit) :
  ratio_nonzero u -> ratio u = Ok (ratio_value u) /\ ratio_value u <> 0%Qc.
Proof. intros (r & Hr & Hn). rewrite (ratio_value_ok u r Hr). auto. Qed.

Lemma weighted_ratio_nonzero (cs : list (Unit * Z)) :
  Forall ratio_nonzero (map fst cs) ->
  weighted_product Qcmult Qc_powZ 1%Qc ratio_value cs <> 0%Qc.
Proof.
  induction cs as [|[c m] cs IH]; simpl; intros H.
  - discriminate.
  - inversion H as [|? ? Hc Hcs]; subst. intros E.
    apply Qcmult_integral in E as [E|E].
    + revert E. apply Qc_powZ_nonzero. apply ratio_nonzero_value. exact Hc.
    + exact (IH Hcs E).
Qed.

(** The ratio of a complex unit, when its components have usable ratios. *)
Lemma ratio_complex_weighted (i : nat) (n : option string)
  (cs : list (Unit * Z)) (sc : option Decimal) :
  Forall ratio_nonzero (map fst cs) -> cs <> [] ->
  ratio (ComplexUnit i n cs sc)
  = Ok (weighted_product Qcmult Qc_powZ 1%Qc ratio_value cs * default 1%Qc sc)%Qc.
Proof.
  intros Hcs Hne. rewrite ratio_ComplexUnit.
  assert (Ht : traverse (fun '(c, m) => r <-? ratio c ;; Decimal_pow r m)%result cs
               = Ok (map (fun c => Qc_powZ (ratio_value c.1) c.2) cs)).
  { clear Hne. induction cs as [|[c m] cs IH]; [reflexivity|].
    inversion Hcs as [|? ? Hc Hcs']; subst. cbn [traverse]. rewrite (IH Hcs').
    destruct (ratio_nonzero_value c Hc) as [-> Hn]. cbn [rbind].
    unfold Decimal_pow. case_decide; [contradiction|]. reflexivity. }
  rewrite Ht. cbn [rbind].
  rewrite (reduce_weighted_product Qc Qcmult Qc_powZ 1%Qc ratio_value
             Qcmult_comm Qcmult_assoc Qcmult_1_l cs Hne).
  reflexivity.
Qed.

Lemma dimension_value_ok (d0 : Dimension) (u : Unit) (d : Dimension) :
  dimension u = Ok d -> dimension_value d0 u = d.
Proof. unfold dimension_value. intros ->. reflexivity. Qed.

Lemma has_dimension_value (d0 : Dimension) (u : Unit) :
  has_dimension u -> dimension u = Ok (dimension_value d0 u).
Proof. intros (d & Hd). rewrite (dimension_value_ok d0 u d Hd). exact Hd. Qed.

Context {DL : DimensionLaws DA}.

Lemma dim_pow_0_eq (a b : Dimension) : dim_pow a 0 = dim_pow b 0.
Proof.
  rewrite <- (dim_pow_0_l b (dim_pow a 0)).
  rewrite dim_mul_comm. rewrite dim_pow_0_l. reflexivity.
Qed.

(** The dimension of a complex unit, when its components have one. *)
Lemma dimension_complex_weighted (d0 : Dimension) (i : nat) (n : option string)
  (cs : list (Unit * Z)) (sc : option Decimal) :
  Forall has_dimension (map fst cs) -> cs <> [] ->
  dimension (ComplexUnit i n cs sc)
  = Ok (weighted_product dim_mul dim_pow (dim_pow d0 0) (dimension_value d0) cs).
Proof.
  intros Hcs Hne. rewrite dimension_ComplexUnit.
  assert (Ht : traverse (fun '(c, m) => d <-? dimension c ;; Ok (dim_pow d m))%result cs
               = Ok (map (fun c => dim_pow (dimension_value d0 c.1) c.2) cs)).
  { clear Hne. induction cs as [|[c m] cs IH]; [reflexivity|].
    inversion Hcs as [|? ? Hc Hcs']; subst. cbn [traverse]. rewrite (IH Hcs').
    rewrite (has_dimension_value d0 c Hc). reflexivity. }
  rewrite Ht. cbn [rbind].
  apply (reduce_weighted_product Dimension dim_mul dim_pow (dim_pow d0 0)
           (dimension_value d0) dim_mul_comm dim_mul_assoc (dim_pow_0_l d0) cs Hne).
Qed.

End Attributes.

Section Operators.
Context {DA : DimensionAlgebra} {DS : DecimalStr}.

Lemma mul_unfold (a b : Unit) :
  __mul__ a b =
  ComplexUnit___new__
    (FromComponents
       (fold_left (fun d '(u, p) => dict_add u p d) (_to_components a 1)
          (dict_of_pairs (_to_components b 1)))) None.
Proof. destruct a; reflexivity. Qed.

Lemma truediv_unfold (a b : Unit) :
  __truediv__ a b =
  ComplexUnit___new__
    (FromComponents
       (fold_left (fun d '(u, p) => dict_add u p d) (_to_components a 1)
          (dict_of_pairs (_to_components b (-1))))) None.
Proof. destruct a; reflexivity. Qed.

End Operators.

Section Closure.
Context {DA : DimensionAlgebra} {DS : DecimalStr}.

(** Merging the components of two multiplicative objects of the system
    always yields a complex unit with exactly the merged components. *)
Lemma merge_succeeds (st : UnitSystem) (a b : Unit) (power : Z) :
  wf st -> allocated st a -> allocated st b ->
  _is_multiplicative a = true -> _is_multiplicative b = true ->
  exists j nm st1,
    ComplexUnit___new__
      (FromComponents
         (fold_left (fun d '(u, p) => dict_add u p d) (_to_components a 1)
            (dict_of_pairs (_to_components b power)))) None st
    = (Ok (ComplexUnit j nm
             (fold_left (fun d '(u, p) => dict_add u p d) (_to_components a 1)
                (dict_of_pairs (_to_components b power))) None), st1) /\
    wf st1 /\ (forall x, allocated st x -> allocated st1 x) /\
    allocated st1
      (ComplexUnit j nm
         (fold_left (fun d '(u, p) => dict_add u p d) (_to_components a 1)
            (dict_of_pairs (_to_components b power))) None).
Proof.
  intros Hwf Ha Hb Hma Hmb.
  set (M := fold_left _ _ _).
  assert (HMa : Forall (allocated st) (map fst M)).
  { apply fold_add_keys; [|apply dict_of_pairs_keys];
      apply to_components_allocated; assumption. }
  assert (HMm : Forall (fun c => _is_multiplicative c.1 = true) M).
  { apply (Forall_fst (fun u => _is_multiplicative u = true)).
    apply (fold_add_keys (fun u => _is_multiplicative u = true));
      [|apply dict_of_pairs_keys];
      apply (Forall_fst (fun u => _is_multiplicative u = true));
      eapply to_components_multiplicative; eassumption. }
  destruct (ComplexUnit___new__ (FromComponents M) None st) as [res st1] eqn:E.
  pose proof (ComplexUnit_new_components M None st st1 res Hwf HMa E)
    as (Hwf1 & Hmono & Hok & Herr & _).
  destruct res as [u|e].
  - destruct (Hok u eq_refl) as (Hu & j & nm & ->). exists j, nm, st1. auto.
  - destruct (Herr e eq_refl) as (_ & _ & Hn). contradiction.
Qed.

Lemma components_nonempty_of_ratio (a : Unit) (ra : Decimal) :
  ratio a = Ok ra -> _to_components a 1 <> [].
Proof.
  intros Hra. destruct a as [| | | |i n cs sc]; try (simpl; discriminate).
  unfold _to_components. destruct (_ || _); [discriminate|].
  destruct cs; [discriminate Hra|]. case_decide; discriminate.
Qed.

(** The weight of the components of [a] is the ratio of [a]. *)
Lemma components_weigh_ratio (a : Unit) (ra : Decimal) :
  Forall ratio_nonzero (map fst (_to_components a 1)) ->
  ratio a = Ok ra ->
  weighted_product Qcmult Qc_powZ 1%Qc ratio_value (_to_components a 1) = ra.
Proof.
  intros Hparts Hra.
  assert (Hatom : weighted_product Qcmult Qc_powZ 1%Qc ratio_value [(a, 1)] = ra).
  { simpl. rewrite Qc_powZ_1, Qcmult_1_r. apply ratio_value_ok. exact Hra. }
  destruct a as [| | | |i n cs sc]; try exact Hatom.
  unfold _to_components in *.
  destruct (bool_decide (is_Some n)) eqn:En; [exact Hatom|].
  destruct (bool_decide (default 1%Qc sc <> 1%Qc)) eqn:Es; [exact Hatom|].
  simpl orb in *. cbv iota in *.
  destruct (decide (1 = 1)) as [_|]; [|contradiction].
  apply bool_decide_eq_false in Es. apply dec_stable in Es.
  assert (Hne : cs <> []) by (intros ->; discriminate Hra).
  rewrite (ratio_complex_weighted i n cs sc Hparts Hne) in Hra.
  injection Hra as <-. rewrite Es, Qcmult_1_r. reflexivity.
Qed.

Lemma ratio_of_quotient (al : Unit -> Prop) (a b : Unit) (j j' : nat)
  (nm nm' : option string) (ra : Decimal) :
  (forall u v, al u -> al v -> py_id u = py_id v -> u = v) ->
  Forall (fun u => al u /\ ratio_nonzero u) (map fst (_to_components a 1)) ->
  Forall (fun u => al u /\ ratio_nonzero u) (map fst (_to_components b 1)) ->
  al (ComplexUnit j nm
        (fold_left (fun d '(u, p) => dict_add u p d) (_to_components a 1)
           (dict_of_pairs (_to_components b 1))) None) ->
  ratio a = Ok ra ->
  ratio (ComplexUnit j' nm'
           (fold_left (fun d '(u, p) => dict_add u p d)
              (_to_components
                 (ComplexUnit j nm
                    (fold_left (fun d '(u, p) => dict_add u p d)
                       (_to_components a 1)
                       (dict_of_pairs (_to_components b 1))) None) 1)
              (dict_of_pairs (_to_components b (-1)))) None)
  = Ok ra.
Proof.
  intros Hinj Ha Hb Hab Hra.
  set (good := fun u => al u /\ ratio_nonzero u) in *.
  assert (Hgn : forall l, Forall good l -> Forall ratio_nonzero l).
  { intros l Hl. eapply Forall_impl; [exact Hl|]. intros u [_ H]. exact H. }
  pose proof (wprod_closure Qc Qcmult Qc_powZ 1%Qc ratio_value good
    Qcmult_comm Qcmult_assoc Qcmult_1_l
    (fun u _ => Qc_powZ_0 _) (fun u _ => Qc_powZ_1 _)
    (fun u m n Hu => Qc_powZ_add _ m n (proj2 (ratio_nonzero_value u (proj2 Hu))))
    (fun u v Hu Hv => Hinj u v (proj1 Hu) (proj1 Hv))
    a b j nm Ha Hb (components_nonempty_of_ratio a ra Hra)) as Hcl.
  cbv zeta in Hcl.
  destruct Hcl as (Hw & Hne & Hgood).
  { intros HM1 HM1ne.
    pose proof (ratio_complex_weighted j nm _ None (Hgn _ HM1) HM1ne) as Hr.
    simpl default in Hr. rewrite Qcmult_1_r in Hr.
    split; [split; [exact Hab|]|].
    - eexists. split; [exact Hr|]. apply weighted_ratio_nonzero. apply Hgn. exact HM1.
    - apply ratio_value_ok. exact Hr. }
  rewrite (ratio_complex_weighted j' nm' _ None (Hgn _ Hgood) Hne).
  simpl default. rewrite Qcmult_1_r, Hw.
  f_equal. apply components_weigh_ratio; [apply Hgn; exact Ha|exact Hra].
Qed.

Context {DL : DimensionLaws DA}.

Lemma components_nonempty_of_dimension (a : Unit) (da : Dimension) :
  dimension a = Ok da -> _to_components a 1 <> [].
Proof.
  intros Hda. destruct a as [| | | |i n cs sc]; try (simpl; discriminate).
  unfold _to_components. destruct (_ || _); [discriminate|].
  destruct cs; [discriminate Hda|]. case_decide; discriminate.
Qed.

Lemma components_weigh_dimension (a : Unit) (da : Dimension) :
  Forall has_dimension (map fst (_to_components a 1)) ->
  dimension a = Ok da ->
  weighted_product dim_mul dim_pow (dim_pow da 0) (dimension_value da)
    (_to_components a 1) = da.
Proof.
  intros Hparts Hda.
  assert (Hatom : weighted_product dim_mul dim_pow (dim_pow da 0)
                    (dimension_value da) [(a, 1)] = da).
  { simpl. rewrite dim_pow_1, dim_mul_comm, dim_pow_0_l.
    apply dimension_value_ok. exact Hda. }
  destruct a as [| | | |i n cs sc]; try exact Hatom.
  unfold _to_components in *.
  destruct (bool_decide (is_Some n) || bool_decide (default 1%Qc sc <> 1%Qc));
    [exact Hatom|].
  destruct (decide (1 = 1)) as [_|]; [|contradiction].
  assert (Hne : cs <> []) by (intros ->; discriminate Hda).
  rewrite (dimension_complex_weighted da i n cs sc Hparts Hne) in Hda.
  injection Hda as Hda. exact Hda.
Qed.

Lemma dimension_of_quotient (al : Unit -> Prop) (a b : Unit) (j j' : nat)
  (nm nm' : option string) (da : Dimension) :
  (forall u v, al u -> al v -> py_id u = py_id v -> u = v) ->
  Forall (fun u => al u /\ has_dimension u) (map fst (_to_components a 1)) ->
  Forall (fun u => al u /\ has_dimension u) (map fst (_to_components b 1)) ->
  al (ComplexUnit j nm
        (fold_left (fun d '(u, p) => dict_add u p d) (_to_components a 1)
           (dict_of_pairs (_to_components b 1))) None) ->
  dimension a = Ok da ->
  dimension (ComplexUnit j' nm'
           (fold_left (fun d '(u, p) => dict_add u p d)
              (_to_components
                 (ComplexUnit j nm
                    (fold_left (fun d '(u, p) => dict_add u p d)
                       (_to_components a 1)
                       (dict_of_pairs (_to_components b 1))) None) 1)
              (dict_of_pairs (_to_components b (-1)))) None)
  = Ok da.
Proof.
  intros Hinj Ha Hb Hab Hda.
  set (good := fun u => al u /\ has_dimension u) in *.
  assert (Hgn : forall l, Forall good l -> Forall has_dimension l).
  { intros l Hl. eapply Forall_impl; [exact Hl|]. intros u [_ H]. exact H. }
  pose proof (wprod_closure Dimension dim_mul dim_pow (dim_pow da 0)
    (dimension_value da) good
    dim_mul_comm dim_mul_assoc (dim_pow_0_l da)
    (fun u _ => dim_pow_0_eq _ _) (fun u _ => dim_pow_1 _)
    (fun u m n _ => dim_pow_add _ m n)
    (fun u v Hu Hv => Hinj u v (proj1 Hu) (proj1 Hv))
    a b j nm Ha Hb (components_nonempty_of_dimension a da Hda)) as Hcl.
  cbv zeta in Hcl.
  destruct Hcl as (Hw & Hne & Hgood).
  { intros HM1 HM1ne.
    pose proof (dimension_complex_weighted da j nm _ None (Hgn _ HM1) HM1ne) as Hr.
    split; [split; [exact Hab|]|].
    - eexists. exact Hr.
    - apply dimension_value_ok. exact Hr. }
  rewrite (dimension_complex_weighted da j' nm' _ None (Hgn _ Hgood) Hne).
  rewrite Hw. f_equal. apply components_weigh_dimension; [apply Hgn; exact Ha|exact Hda].
Qed.

End Closure.

Section ClosureTheorem.
Context {DA : DimensionAlgebra} {DS : DecimalStr}.

Lemma parts_in_system (st st1 : UnitSystem) (a : Unit) (P : Unit -> Prop) :
  wf st -> allocated st a -> (forall x, allocated st x -> allocated st1 x) ->
  Forall (fun c => P c.1) (_to_components a 1) ->
  Forall (fun u => allocated st1 u /\ P u) (map fst (_to_components a 1)).
Proof.
  intros Hwf Ha Hmono HP.
  pose proof (to_components_allocated st a 1 Hwf Ha) as Hal.
  apply (Forall_fst P) in HP.
  induction (map fst (_to_components a 1)) as [|u l IH]; [constructor|].
  inversion Hal; inversion HP; subst. constructor; auto.
Qed.


End ClosureTheorem.

Section Interning.
Context {DA : DimensionAlgebra} {DS : DecimalStr}.

(** The three constructors that read and write one and the same key do
    intern: a second call with the same key returns the first object. *)
Lemma PrimaryUnit_interned (n n' : option string) (d : Dimension)
  (st st1 : UnitSystem) (u : Unit) :
  PrimaryUnit___new__ n d st = (Ok u, st1) ->
  PrimaryUnit___new__ n' d st1 = (Ok u, st1).
Proof.
  unfold PrimaryUnit___new__.
  destruct (dict_get _ d (__primary_units__ st)) as [u0|] eqn:Hget.
  - destruct (dimension u0) as [dd|] eqn:Hd; [|discriminate].
    case_decide; [|discriminate]. intros [= <- <-].
    rewrite Hget, Hd. case_decide; [reflexivity|contradiction].
  - intros [= <- <-]. simpl.
    rewrite dict_get_set_same by (apply bool_decide_eq_true_2; reflexivity).
    simpl. case_decide; [reflexivity|contradiction].
Qed.

Lemma DiffDerivedUnit_interned (n n' : option string) (ou : Unit)
  (st st1 : UnitSystem) (u : Unit) :
  DiffDerivedUnit___new__ ou n st = (Ok u, st1) ->
  DiffDerivedUnit___new__ ou n' st1 = (Ok u, st1).
Proof.
  unfold DiffDerivedUnit___new__.
  destruct ou as [| |i m p r o| |];
    try (unfold bind, lift, raise; destruct (Unit___str__ _); discriminate).
  destruct (dict_get _ _ (__derived_units__ st)) as [u0|] eqn:Hget.
  - intros [= <- <-]. rewrite Hget. reflexivity.
  - intros [= <- <-]. simpl __derived_units__.
    rewrite dict_get_set_same by apply py_eqb_refl. reflexivity.
Qed.

Lemma ComplexUnit_interned (a : components_arg) (n n' : option string)
  (st st1 : UnitSystem) (u : Unit) :
  ComplexUnit___new__ a n st = (Ok u, st1) ->
  ComplexUnit___new__ a n' st1 = (Ok u, st1).
Proof.
  unfold ComplexUnit___new__.
  destruct a as [q|cs];
    (destruct (dict_get _ _ (__complex_units__ st)) as [u0|] eqn:Hget;
     [intros [= <- <-]; rewrite Hget; reflexivity|]);
    (destruct (forallb _ _); [|discriminate]); intros [= <- <-];
    simpl __complex_units__;
    rewrite dict_get_set_same by apply py_eqb_refl; reflexivity.
Qed.

(** [DerivedUnit.__new__] looks up [(id(primary_unit), ratio)], a key no
    constructor ever writes. *)
Lemma derived_lookup_misses (st : UnitSystem) (p : Unit) (r : Decimal) :
  wf st ->
  dict_get py_eqb (PTuple [id_key p; PDecimal r]) (__derived_units__ st) = None.
Proof.
  intros Hwf. destruct (dict_get _ _ _) as [u|] eqn:Hget; [|reflexivity].
  apply dict_get_Some in Hget as (k' & Hin & E).
  destruct (wf_derived st Hwf _ _ Hin) as [_ Hk].
  destruct u; try discriminate; injection Hk as <-; simpl in E;
    rewrite ?andb_false_r in E; discriminate.
Qed.

(** [OffsetDerivedUnit.__new__] looks up [(primary_unit, ratio, offset)]
    and writes [(id(primary_unit), ratio, offset)]. *)
Lemma offset_lookup_misses (st : UnitSystem) (p : Unit) (r o : Decimal) :
  wf st ->
  dict_get py_eqb (PTuple [PUnit (py_id p); PDecimal r; PDecimal o])
    (__derived_units__ st) = None.
Proof.
  intros Hwf. destruct (dict_get _ _ _) as [u|] eqn:Hget; [|reflexivity].
  apply dict_get_Some in Hget as (k' & Hin & E).
  destruct (wf_derived st Hwf _ _ Hin) as [_ Hk].
  destruct u; try discriminate; injection Hk as <-; simpl in E;
    rewrite ?andb_false_r in E; discriminate.
Qed.

(** So every call of [DerivedUnit.__new__] allocates. *)
Lemma DerivedUnit_new_allocates (a : unit_or_quantity) (ratio_ : Decimal)
  (name : option string) (st : UnitSystem) :
  wf st ->
  exists n p r st1,
    DerivedUnit___new__ a ratio_ name st
    = (Ok (DerivedUnit (fresh_id st) n p r), st1) /\
    fresh_id st1 = S (fresh_id st).
Proof.
  intros Hwf. unfold DerivedUnit___new__.
  destruct (match a with AQuantity q => _ | AUnit u => _ end) as [pu r0].
  destruct (match pu with DerivedUnit _ _ p r => _ | _ => _ end) as [p r1].
  rewrite derived_lookup_misses by exact Hwf.
  eexists _, _, _, _. split; [reflexivity|].
  unfold fresh_id. simpl. rewrite length_app. simpl. lia.
Qed.

(** The flattening of [DerivedUnit.__new__]: a derived unit passed as
    [primary_unit] gives its own primary unit and the product of the
    ratios. *)
Lemma DerivedUnit_new_flattens (i : nat) (m name : option string) (p : Unit)
  (r ratio_ : Decimal) (st : UnitSystem) :
  wf st ->
  exists n st1,
    DerivedUnit___new__ (AUnit (DerivedUnit i m p r)) ratio_ name st
    = (Ok (DerivedUnit (fresh_id st) n p (ratio_ * r)%Qc), st1).
Proof.
  intros Hwf. unfold DerivedUnit___new__.
  rewrite derived_lookup_misses by exact Hwf. eexists _, _. reflexivity.
Qed.

(** The same for a [Quantity] whose unit is derived; the [ratio] argument
    is replaced by the value of the quantity. *)
Lemma DerivedUnit_new_flattens_quantity (i : nat) (m name : option string)
  (p : Unit) (r v ratio_ : Decimal) (st : UnitSystem) :
  wf st ->
  exists n st1,
    DerivedUnit___new__ (AQuantity (mkQuantity v (DerivedUnit i m p r)))
      ratio_ name st
    = (Ok (DerivedUnit (fresh_id st) n p (v * r)%Qc), st1).
Proof.
  intros Hwf. unfold DerivedUnit___new__. cbn [Quantity_unit Quantity_value].
  rewrite derived_lookup_misses by exact Hwf. eexists _, _. reflexivity.
Qed.

End Interning.

Section EqualityFacts.
Context {DA : DimensionAlgebra} {DS : DecimalStr}.


End EqualityFacts.

Section ExampleFacts.
#[local] Existing Instance exponent_dims.
#[local] Existing Instance fraction_str.

Lemma exponent_dims_laws : DimensionLaws exponent_dims.
Proof.
  split; simpl; intros; try destruct a; try destruct b; try destruct c;
    simpl; f_equal; lia.
Qed.

Lemma world_built :
  PrimaryUnit___new__ (Some "metre") length_ (empty_system no_factors)
    = (Ok metre, world1) /\
  PrimaryUnit___new__ (Some "kelvin") temperature world1 = (Ok kelvin, world2) /\
  OffsetDerivedUnit___new__ kelvin 1%Qc (Q2Qc (27315 # 100)) (Some "celsius") world2
    = (Ok celsius, world3) /\
  DerivedUnit___new__ (AUnit metre) (Q2Qc 1000) (Some "kilometre") world3
    = (Ok kilometre, world) /\
  ComplexUnit___new__ (FromComponents [(metre, 1)]) (Some "m1") world
    = (Ok named_metre, world_named).
Proof. repeat split; vm_compute; reflexivity. Qed.

Lemma world_wf : wf world /\ wf world_named.
Proof.
  destruct world_built as (E1 & E2 & E3 & E4 & E5).
  pose proof (PrimaryUnit_new_wf _ _ _ _ _ (wf_empty no_factors) E1) as (W1 & M1 & A1).
  pose proof (PrimaryUnit_new_wf _ _ _ _ _ W1 E2) as (W2 & M2 & A2).
  pose proof (OffsetDerivedUnit_new_wf _ _ _ _ _ _ _ W2 (A2 _ eq_refl) E3) as (W3 & M3 & A3).
  assert (A : allocated world3 metre) by (apply M3, M2, A1; reflexivity).
  pose proof (DerivedUnit_new_wf (AUnit metre) _ _ _ _ _ W3 A E4) as (W4 & M4 & A4).
  split; [exact W4|].
  eapply ComplexUnit_new_components; [exact W4| |exact E5].
  constructor; [apply M4; exact A|constructor].
Qed.

Lemma world_allocated :
  allocated world metre /\ allocated world kelvin /\
  allocated world celsius /\ allocated world kilometre /\
  allocated world_named named_metre.
Proof. repeat split; vm_compute; reflexivity. Qed.

End ExampleFacts.

Section ExampleTheorems.
#[local] Existing Instance exponent_dims.
#[local] Existing Instance fraction_str.

(** Claim C1, at the failing input.  Two calls of [DerivedUnit.__new__]
    with the same primary unit and the same ratio return two objects, and
    so do two calls of [OffsetDerivedUnit.__new__] with the same primary
    unit, ratio and offset: the table is read under one key and written
    under another. *)
Theorem derived_units_are_not_interned :
  fst ((d1 <- DerivedUnit___new__ (AUnit metre) (Q2Qc 1000) None ;;
        d2 <- DerivedUnit___new__ (AUnit metre) (Q2Qc 1000) None ;;
        o1 <- OffsetDerivedUnit___new__ kelvin 1%Qc (Q2Qc (27315 # 100)) None ;;
        o2 <- OffsetDerivedUnit___new__ kelvin 1%Qc (Q2Qc (27315 # 100)) None ;;
        ret (is_ d1 d2, is_ o1 o2))%M world2)
  = Ok (false, false).
Proof. vm_compute. reflexivity. Qed.

(** Claim C2, at the failing input.  [OffsetDerivedUnit.__new__], given
    [kilometre] (ratio 1000 over [metre]) and the ratio 2, stores [metre]
    as the primary unit and 2 as the ratio, not 2 * 1000: it reads the
    ratio of the unit it has just substituted.  [DerivedUnit.__new__], on
    the same arguments, stores [metre] and 2 * 1000. *)
Theorem offset_unit_does_not_fold_ratio :
  ratio kilometre = Ok (Q2Qc 1000) /\
  (exists i n st',
     OffsetDerivedUnit___new__ kilometre (Q2Qc 2) 0%Qc None world
     = (Ok (OffsetDerivedUnit i n metre (Q2Qc 2) 0%Qc), st')) /\
  Q2Qc 2 <> (Q2Qc 2 * Q2Qc 1000)%Qc /\
  (exists i n st',
     DerivedUnit___new__ (AUnit kilometre) (Q2Qc 2) None world
     = (Ok (DerivedUnit i n metre (Q2Qc 2 * Q2Qc 1000)%Qc), st')).
Proof.
  split; [reflexivity|].
  split; [eexists _, _, _; vm_compute; reflexivity|].
  split; [discriminate|].
  destruct (DerivedUnit_new_flattens 3 (Some "kilometre") None metre
              (Q2Qc 1000) (Q2Qc 2) world (proj1 world_wf)) as (n & st' & E).
  exists (fresh_id world), n, st'. exact E.
Qed.





End ExampleTheorems.

Section Witnesses.
#[local] Existing Instance exponent_dims.
#[local] Existing Instance fraction_str.


(** Claim C6 at [kilometre ** 3]. *)
Lemma DerivedUnit_pow_exponent_two_witness :
  wf world /\ allocated world kilometre /\ class_of kilometre = cDerivedUnit /\
  exists i nm st',
    __pow__ kilometre 3 world
    = (Ok (ComplexUnit i nm [(kilometre, 2)] None), st').
Proof.
  split; [exact (proj1 world_wf)|].
  split; [vm_compute; reflexivity|].
  split; [reflexivity|].
  apply (DerivedUnit_pow_exponent_two world kilometre 3);
    [exact (proj1 world_wf)|vm_compute; reflexivity|reflexivity].
Defined.



Lemma kelvin_part_ok :
  Forall (fun c : Unit * Z => ratio_nonzero c.1 /\ has_dimension c.1)
    (_to_components kelvin 1).
Proof.
  repeat constructor.
  - exists 1%Qc. split; [reflexivity|discriminate].
  - exists temperature. reflexivity.
Qed.

Lemma metre_part_ok :
  Forall (fun c : Unit * Z => ratio_nonzero c.1 /\ has_dimension c.1)
    (_to_components metre 1).
Proof.
  repeat constructor.
  - exists 1%Qc. split; [reflexivity|discriminate].
  - exists length_. reflexivity.
Qed.



End Witnesses.

(** * The constructors *)

Section Constructors.
Context {DA : DimensionAlgebra} {DS : DecimalStr}.

(** X1.  In a well-formed unit system [PrimaryUnit(name, dimension)] always
    returns a unit of that dimension, and a second call for the same
    dimension returns the object of the first call, whatever name it is
    given, and leaves the unit system as the first call left it: the name
    of the second call is dropped. *)
Theorem PrimaryUnit_new_one_per_dimension (st : UnitSystem)
  (n n' : option string) (d : Dimension) :
  wf st ->
  exists u st1,
    PrimaryUnit___new__ n d st = (Ok u, st1) /\
    PrimaryUnit___new__ n' d st1 = (Ok u, st1) /\
    dimension u = Ok d /\ allocated st1 u /\ wf st1.
Proof.
  intros Hwf.
  destruct (PrimaryUnit___new__ n d st) as [r st1] eqn:E.
  pose proof (PrimaryUnit_new_wf n d st st1 r Hwf E) as (Hwf1 & _ & Hal).
  assert (Hr : exists u, r = Ok u /\ dimension u = Ok d).
  { revert E. unfold PrimaryUnit___new__.
    destruct (dict_get _ d (__primary_units__ st)) as [u0|] eqn:Hget.
    - apply dict_get_Some in Hget as (k' & Hin & Hk).
      apply bool_decide_eq_true in Hk. subst k'.
      destruct (wf_primary st Hwf _ _ Hin) as [_ Hd]. rewrite Hd.
      case_decide; [|contradiction]. intros [= <- <-]. eauto.
    - intros [= <- <-]. eauto. }
  destruct Hr as (u & -> & Hd). exists u, st1.
  split; [reflexivity|]. split; [exact (PrimaryUnit_interned n n' d st st1 u E)|].
  split; [exact Hd|]. split; [exact (Hal u eq_refl)|exact Hwf1].
Qed.

(** A table entry found under the key of a diff unit is a diff unit of the
    same offset unit. *)
Lemma diff_key_found (st : UnitSystem) (o u : Unit) :
  wf st -> allocated st o ->
  dict_get py_eqb (PTuple [id_key o; PStr "diff"]) (__derived_units__ st) = Some u ->
  exists j nm, u = DiffDerivedUnit j nm o.
Proof.
  intros Hwf Ho Hget.
  apply dict_get_Some in Hget as (k' & Hin & E).
  destruct (wf_derived st Hwf _ _ Hin) as [Hu Hk].
  pose proof (allocated_references st u Hwf Hu) as Hr.
  destruct u as [|j m p r|j m p r off|j m ou|]; try discriminate;
    injection Hk as <-; simpl in E.
  - rewrite ?andb_false_r in E. discriminate.
  - rewrite ?andb_false_r in E. simpl in E. discriminate.
  - apply andb_true_iff in E as [E _]. apply bool_decide_eq_true in E.
    simpl in Hr. apply Forall_inv in Hr.
    assert (ou = o) as -> by (eapply allocated_inj; eauto; lia).
    eauto.
Qed.




(** What a constructor that builds no primary unit does to the system. *)
Lemma primary_registered_other (st st' : UnitSystem) (n : Unit) :
  primary_registered st ->
  class_of n <> cPrimaryUnit ->
  objects st' = objects st ++ [n] ->
  __primary_units__ st' = __primary_units__ st ->
  primary_registered st'.
Proof.
  intros Hreg Hn Ho Hp i m d Hal. rewrite Hp.
  unfold allocated in Hal. rewrite Ho in Hal.
  apply lookup_app_Some in Hal as [Hal|[_ Hal]].
  - apply Hreg. exact Hal.
  - apply list_lookup_singleton_Some in Hal as [_ ->].
    exfalso. apply Hn. reflexivity.
Qed.

Lemma primary_registered_complex (st st' : UnitSystem) (a : components_arg)
  (name : option string) (r : result Unit) :
  primary_registered st ->
  ComplexUnit___new__ a name st = (r, st') -> primary_registered st'.
Proof.
  intros Hreg. unfold ComplexUnit___new__.
  destruct (match a with FromQuantity q => _ | FromComponents cs => _ end)
    as [sc cs].
  destruct (dict_get _ _ _); [intros [= <- <-]; exact Hreg|].
  destruct (forallb _ _); intros [= <- <-]; [|exact Hreg].
  eapply primary_registered_other; [exact Hreg| |reflexivity|reflexivity].
  discriminate.
Qed.

(** X6.  One primary unit per dimension.  The property that every primary
    unit of the system is the entry of [__primary_units__] under its
    dimension is kept by the five constructors and by [*], [/] and [**];
    in a system that has it, two primary units of the same dimension are
    one and the same object. *)
Theorem one_primary_unit_per_dimension (st : UnitSystem) :
  primary_registered st ->
  (forall i j n m d,
     allocated st (PrimaryUnit i n d) -> allocated st (PrimaryUnit j m d) ->
     PrimaryUnit i n d = PrimaryUnit j m d) /\
  (forall name d r st',
     PrimaryUnit___new__ name d st = (r, st') -> primary_registered st') /\
  (forall a ratio_ name r st',
     DerivedUnit___new__ a ratio_ name st = (r, st') -> primary_registered st') /\
  (forall pu ratio_ offset name r st',
     OffsetDerivedUnit___new__ pu ratio_ offset name st = (r, st') ->
     primary_registered st') /\
  (forall ou name r st',
     DiffDerivedUnit___new__ ou name st = (r, st') -> primary_registered st') /\
  (forall a name r st',
     ComplexUnit___new__ a name st = (r, st') -> primary_registered st') /\
  (forall a b r st', __mul__ a b st = (r, st') -> primary_registered st') /\
  (forall a b r st', __truediv__ a b st = (r, st') -> primary_registered st') /\
  (forall a power r st', __pow__ a power st = (r, st') -> primary_registered st').
Proof.
  intros Hreg. repeat apply conj.
  - intros i j n m d Hi Hj.
    pose proof (Hreg _ _ _ Hi) as Ei. pose proof (Hreg _ _ _ Hj) as Ej.
    congruence.
  - intros name d r st'. unfold PrimaryUnit___new__.
    destruct (dict_get _ d (__primary_units__ st)) as [u0|] eqn:Hget.
    + destruct (dimension u0); [case_decide|]; intros [= <- <-]; exact Hreg.
    + intros [= <- <-] i m d' Hal.
      unfold allocated, allocate, set_primary in Hal. simpl in Hal.
      unfold set_primary, allocate. simpl.
      apply lookup_app_Some in Hal as [Hal|[_ Hal]].
      * pose proof (Hreg _ _ _ Hal) as Hold.
        destruct (decide (d' = d)) as [->|Hne]; [congruence|].
        rewrite (dict_set_miss _ d _ _ Hget).
        clear Hget. induction (__primary_units__ st) as [|[k0 v0] l IH];
          simpl in *; [discriminate|].
        destruct (bool_decide (k0 = d')); [exact Hold|auto].
      * apply list_lookup_singleton_Some in Hal as [_ Hal].
        injection Hal as <- <- <-.
        apply dict_get_set_same. apply bool_decide_eq_true_2. reflexivity.
  - intros a ratio_ name r st'. unfold DerivedUnit___new__.
    destruct (match a with AQuantity q => _ | AUnit u => _ end) as [pu r0].
    destruct (match pu with DerivedUnit _ _ p r1 => _ | _ => _ end) as [p r1].
    destruct (dict_get _ _ _); intros [= <- <-]; [exact Hreg|].
    eapply primary_registered_other; [exact Hreg| |reflexivity|reflexivity].
    discriminate.
  - intros pu ratio_ offset name r st'.
    unfold OffsetDerivedUnit___new__, bind, lift.
    destruct (match pu with DerivedUnit _ _ p _ => _ | _ => _ end) as [[p r1]|e];
      [|intros [= <- <-]; exact Hreg].
    destruct (dict_get _ _ _); intros [= <- <-]; [exact Hreg|].
    eapply primary_registered_other; [exact Hreg| |reflexivity|reflexivity].
    discriminate.
  - intros ou name r st'. unfold DiffDerivedUnit___new__.
    destruct ou;
      try (unfold bind, lift, raise; destruct (Unit___str__ _);
           intros [= <- <-]; exact Hreg).
    destruct (dict_get _ _ _); intros [= <- <-]; [exact Hreg|].
    eapply primary_registered_other; [exact Hreg| |reflexivity|reflexivity].
    discriminate.
  - intros a name r st'. apply primary_registered_complex. exact Hreg.
  - intros a b r st'. rewrite mul_unfold.
    apply primary_registered_complex. exact Hreg.
  - intros a b r st'. rewrite truediv_unfold.
    apply primary_registered_complex. exact Hreg.
  - intros a power r st'.
    destruct a; cbn [__pow__];
      unfold PrimaryUnit___pow__, DerivedUnit___pow__, ComplexUnit___pow__;
      apply primary_registered_complex; exact Hreg.
Qed.


End Constructors.

(** * The operators *)

Section OperatorFacts.
Context {DA : DimensionAlgebra} {DS : DecimalStr}.

(** ** The dictionary of components *)

Lemma dict_set_kept (k u : Unit) (p : Z) (d : dict Unit Z) :
  In k (map fst d) -> In k (map fst (dict_set is_ u p d)).
Proof.
  induction d as [|[k0 v0] d IH]; simpl; [contradiction|].
  destruct (is_ k0 u); simpl; intros [H|H]; auto.
Qed.

Lemma dict_set_has (u : Unit) (p : Z) (d : dict Unit Z) :
  exists k, In k (map fst (dict_set is_ u p d)) /\ is_ k u = true.
Proof.
  induction d as [|[k0 v0] d IH]; simpl.
  - exists u. split; [auto|apply is_refl].
  - destruct (is_ k0 u) eqn:E; simpl.
    + exists k0. auto.
    + destruct IH as (k & Hin & Hk). exists k. auto.
Qed.

Lemma fold_add_kept (k : Unit) (l : list (Unit * Z)) (d : dict Unit Z) :
  In k (map fst d) ->
  In k (map fst (fold_left (fun d '(u, p) => dict_add u p d) l d)).
Proof.
  revert d. induction l as [|[u p] l IH]; simpl; intros d H; [exact H|].
  apply IH. apply dict_set_kept. exact H.
Qed.

Lemma fold_add_has (c : Unit) (l : list (Unit * Z)) (d : dict Unit Z) :
  In c (map fst l) ->
  exists k, In k (map fst (fold_left (fun d '(u, p) => dict_add u p d) l d)) /\
            is_ k c = true.
Proof.
  revert d. induction l as [|[u p] l IH]; simpl; intros d; [contradiction|].
  intros [->|H]; [|apply IH; exact H].
  destruct (dict_set_has c (default 0 (dict_get is_ c d) + p) d) as (k & Hin & Hk).
  exists k. split; [|exact Hk]. apply fold_add_kept. exact Hin.
Qed.

Lemma dict_of_pairs_has (c : Unit) (l : list (Unit * Z)) :
  In c (map fst l) ->
  exists k, In k (map fst (dict_of_pairs l)) /\ is_ k c = true.
Proof.
  unfold dict_of_pairs.
  assert (Hkept : forall (l : list (Unit * Z)) (d : dict Unit Z) k,
            In k (map fst d) ->
            In k (map fst (fold_left (fun d '(u, p) => dict_set is_ u p d) l d))).
  { clear. induction l as [|[u p] l IH]; simpl; intros d k H; [exact H|].
    apply IH. apply dict_set_kept. exact H. }
  generalize (@nil (Unit * Z)). induction l as [|[u p] l IH]; simpl; intros d;
    [contradiction|].
  intros [->|H]; [|apply IH; exact H].
  destruct (dict_set_has c p d) as (k & Hin & Hk).
  exists k. split; [|exact Hk]. apply Hkept. exact Hin.
Qed.

Lemma mul_merged (a b : Unit) :
  __mul__ a b = ComplexUnit___new__ (FromComponents (merged a b 1)) None.
Proof. apply mul_unfold. Qed.

Lemma truediv_merged (a b : Unit) :
  __truediv__ a b = ComplexUnit___new__ (FromComponents (merged a b (-1))) None.
Proof. apply truediv_unfold. Qed.

Lemma merged_allocated (st : UnitSystem) (a b : Unit) (power : Z) :
  wf st -> allocated st a -> allocated st b ->
  Forall (allocated st) (map fst (merged a b power)).
Proof.
  intros Hwf Ha Hb. unfold merged.
  apply fold_add_keys; [|apply dict_of_pairs_keys];
    apply to_components_allocated; assumption.
Qed.

(** Every unit that enters a merge is among its keys. *)
Lemma merged_has (st : UnitSystem) (a b c : Unit) (power : Z) :
  wf st -> allocated st a -> allocated st b -> allocated st c ->
  In c (map fst (_to_components a 1)) \/
  In c (map fst (_to_components b power)) ->
  In c (map fst (merged a b power)).
Proof.
  intros Hwf Ha Hb Hc H.
  pose proof (merged_allocated st a b power Hwf Ha Hb) as Hal.
  assert (Hk : exists k, In k (map fst (merged a b power)) /\ is_ k c = true).
  { destruct H as [H|H].
    - apply fold_add_has. exact H.
    - destruct (dict_of_pairs_has c _ H) as (k & Hin & Hk).
      exists k. split; [|exact Hk]. apply fold_add_kept. exact Hin. }
  destruct Hk as (k & Hin & Hk). apply is_true_iff in Hk.
  rewrite List.Forall_forall in Hal.
  rewrite <- (allocated_inj st k c (Hal k Hin) Hc Hk). exact Hin.
Qed.

(** What every operator does: it hands components of the system to
    [ComplexUnit], without a name. *)
Lemma operator_components (st : UnitSystem) (a b : Unit) (n : Z) :
  wf st -> allocated st a -> allocated st b ->
  forall op : M Unit,
    op = __mul__ a b \/ op = __truediv__ a b \/ op = __pow__ a n ->
    exists cs, op = ComplexUnit___new__ (FromComponents cs) None /\
               Forall (allocated st) (map fst cs).
Proof.
  intros Hwf Ha Hb op [-> | [-> | ->]].
  - exists (merged a b 1). split; [apply mul_merged|].
    apply merged_allocated; assumption.
  - exists (merged a b (-1)). split; [apply truediv_merged|].
    apply merged_allocated; assumption.
  - pose proof (allocated_references st a Hwf Ha) as Hr.
    destruct a as [| | | |i m cs sc]; cbn [__pow__];
      try (eexists; split; [reflexivity|]; constructor; [exact Ha|constructor]).
    eexists. split; [reflexivity|].
    simpl in Hr. rewrite map_map.
    erewrite map_ext; [exact Hr|]. intros [c p]; reflexivity.
Qed.


(** A merge that contains an offset unit is rejected. *)
Lemma merge_rejected (st : UnitSystem) (cs : list (Unit * Z)) (o : Unit) :
  wf st -> Forall (allocated st) (map fst cs) ->
  In o (map fst cs) -> _is_multiplicative o = false ->
  ComplexUnit___new__ (FromComponents cs) None st = (Raise AssertionError, st).
Proof.
  intros Hwf Hcs Hin Ho.
  destruct (ComplexUnit___new__ (FromComponents cs) None st) as [r st'] eqn:E.
  pose proof (ComplexUnit_new_components cs None st st' r Hwf Hcs E)
    as (Hwf' & _ & Hok & Herr & _).
  destruct r as [u|e].
  - destruct (Hok u eq_refl) as (Hu & i & nm & ->).
    pose proof (allocated_built st' _ Hwf' Hu) as Hb. simpl in Hb.
    apply (Forall_fst (fun u => _is_multiplicative u = true)) in Hb.
    rewrite List.Forall_forall in Hb. rewrite (Hb o Hin) in Ho. discriminate.
  - destruct (Herr e eq_refl) as (-> & -> & _). reflexivity.
Qed.

Lemma to_components_simple (u : Unit) (power : Z) :
  class_of u <> cComplexUnit -> _to_components u power = [(u, power)].
Proof. destruct u; try reflexivity. intros H. exfalso. apply H. reflexivity. Qed.


(** The merge of two units that enter as single components. *)
Lemma merged_atoms (a b : Unit) (power : Z) :
  _to_components a 1 = [(a, 1)] -> _to_components b power = [(b, power)] ->
  merged a b power
  = if is_ b a then [(b, power + 1)] else [(b, power); (a, 1)].
Proof.
  intros Ha Hb. unfold merged, dict_of_pairs, dict_add. rewrite Ha, Hb. simpl.
  destruct (is_ b a); reflexivity.
Qed.

Lemma merged_built (st : UnitSystem) (a b : Unit) (power : Z) :
  wf st -> allocated st a -> allocated st b ->
  _is_multiplicative a = true -> _is_multiplicative b = true ->
  exists j nm st1,
    ComplexUnit___new__ (FromComponents (merged a b power)) None st
    = (Ok (ComplexUnit j nm (merged a b power) None), st1) /\
    wf st1 /\ (forall x, allocated st x -> allocated st1 x) /\
    allocated st1 (ComplexUnit j nm (merged a b power) None).
Proof. apply merge_succeeds. Qed.


(** X11.  The square of a unit by [*] is its square by [**]: for a
    primary, derived or diff unit [a] of a well-formed system, [a * a] is
    the complex unit with the one component [(a, 2)], and [a ** 2] then
    returns that same object and leaves the system as it is. *)
Theorem mul_self_is_pow_two (st : UnitSystem) (a : Unit) :
  wf st -> allocated st a ->
  class_of a <> cComplexUnit -> class_of a <> cOffsetDerivedUnit ->
  exists i nm st1,
    __mul__ a a st = (Ok (ComplexUnit i nm [(a, 2)] None), st1) /\
    __pow__ a 2 st1 = (Ok (ComplexUnit i nm [(a, 2)] None), st1).
Proof.
  intros Hwf Ha Hc Ho.
  assert (Hm : _is_multiplicative a = true)
    by (destruct a; try reflexivity; exfalso; apply Ho; reflexivity).
  destruct (merged_built st a a 1 Hwf Ha Ha Hm Hm)
    as (i & nm & st1 & E1 & _).
  rewrite (merged_atoms a a 1) in E1 by (apply to_components_simple; exact Hc).
  rewrite is_refl in E1. change (1 + 1) with 2 in E1.
  exists i, nm, st1. rewrite mul_merged.
  rewrite (merged_atoms a a 1) by (apply to_components_simple; exact Hc).
  rewrite is_refl. change (1 + 1) with 2.
  split; [exact E1|].
  assert (E2 : ComplexUnit___new__ (FromComponents [(a, 2)]) None st1
               = (Ok (ComplexUnit i nm [(a, 2)] None), st1))
    by exact (ComplexUnit_interned _ None None st st1 _ E1).
  destruct a; try exact E2. exfalso. apply Hc. reflexivity.
Qed.

Lemma str_name (u : Unit) (s : string) :
  Unit___str__ u = Ok s -> name u = Ok (Some s).
Proof.
  unfold Unit___str__. destruct (name u) as [[t|]|]; simpl; congruence.
Qed.

(** X12.  A unit divided by itself keeps its component with the exponent
    zero.  For a multiplicative unit [a] of a well-formed system that
    enters a quotient as a single component, [a / a] is the complex unit
    with the one component [(a, 0)]; the name built for it is ["1"], and
    its ratio is one, unless the ratio of [a] is zero, in which case
    reading the ratio raises. *)
Theorem truediv_self_keeps_zero_exponent (st : UnitSystem) (a : Unit)
  (r : Decimal) :
  wf st -> allocated st a -> _is_multiplicative a = true ->
  _to_components a 1 = [(a, 1)] -> ratio a = Ok r ->
  exists i nm st1,
    __truediv__ a a st = (Ok (ComplexUnit i nm [(a, 0)] None), st1) /\
    _build_name (ComplexUnit i nm [(a, 0)] None) = Ok (Some "1") /\
    ratio (ComplexUnit i nm [(a, 0)] None)
    = if decide (r = 0%Qc) then Raise ArithmeticError else Ok 1%Qc.
Proof.
  intros Hwf Ha Hm Hta Hr.
  destruct (merged_built st a a (-1) Hwf Ha Ha Hm Hm)
    as (i & nm & st1 & E1 & _).
  assert (Htn : _to_components a (-1) = [(a, -1)])
    by (rewrite to_components_neg, Hta; reflexivity).
  rewrite (merged_atoms a a (-1) Hta Htn), is_refl in E1.
  change (-1 + 1) with 0 in E1.
  exists i, nm, st1. rewrite truediv_merged.
  rewrite (merged_atoms a a (-1) Hta Htn), is_refl. change (-1 + 1) with 0.
  split; [exact E1|].
  split; [reflexivity|].
  cbn [ratio]. rewrite Hr. cbn [rbind]. unfold Decimal_pow.
  case_decide as H0.
  - case_decide; [lia|reflexivity].
  - cbn [rbind reduce_mul fold_left default]. rewrite Qc_powZ_0 by exact H0.
    reflexivity.
Qed.

Lemma append_nonempty (s t : string) : s <> "" -> s +:+ t <> "".
Proof. destruct s; [contradiction|discriminate]. Qed.

Lemma append_empty_r (t : string) : t +:+ "" = t.
Proof.
  induction t as [|c t IH]; [reflexivity|].
  change (String c (t +:+ "") = String c t). rewrite IH. reflexivity.
Qed.

Lemma append_empty_l (t : string) : "" +:+ t = t.
Proof. reflexivity. Qed.

(** X13.  The name built for a complex unit with the one component
    [(u, p)], where [str(u)] is the non-empty string [s]: [s] for the
    exponent one, [s**p] for a larger one, ["1"] for zero, [1/s] for minus
    one and [1/s**|p|] below. *)
Theorem build_name_of_a_power (i : nat) (nm : option string) (u : Unit)
  (p : Z) (s : string) :
  Unit___str__ u = Ok s -> s <> "" ->
  _build_name (ComplexUnit i nm [(u, p)] None)
  = Ok (Some (if decide (p = 1) then s
              else if decide (1 < p) then s +:+ "**" +:+ pretty p
              else if decide (p = 0) then "1"
              else if decide (p = -1) then "1/" +:+ s
              else "1/" +:+ s +:+ "**" +:+ pretty (Z.abs p))).
Proof.
  intros Hs Hne. apply str_name in Hs.
  unfold _build_name. cbn [name]. rewrite Hs. cbn [rbind default].
  rewrite (decide_True (P := (1 = 1)%Qc)) by reflexivity.
  unfold join_star.
  destruct (decide (p = 1)) as [->|H1].
  { rewrite (decide_True (P := 0 < 1)) by lia.
    rewrite (decide_False (P := 1 < 0)) by lia.
    cbn [rbind String.concat]. rewrite ?append_empty_l.
    rewrite (decide_False (P := s = "")) by exact Hne.
    rewrite (decide_True (P := "" = "")) by reflexivity.
    rewrite append_empty_r. reflexivity. }
  destruct (decide (1 < p)) as [H2|H2].
  { rewrite (decide_True (P := 0 < p)) by lia.
    rewrite (decide_False (P := p < 0)) by lia.
    cbn [rbind String.concat]. rewrite ?append_empty_l.
    rewrite (decide_False (P := s +:+ "**" +:+ pretty p = ""))
      by (apply append_nonempty; exact Hne).
    rewrite (decide_True (P := "" = "")) by reflexivity.
    rewrite append_empty_r. reflexivity. }
  destruct (decide (p = 0)) as [->|H3].
  { rewrite (decide_False (P := 0 < 0)) by lia.
    rewrite (decide_False (P := 0 < 0)) by lia.
    cbn [rbind String.concat]. rewrite ?append_empty_l.
    rewrite !(decide_True (P := "" = "")) by reflexivity. reflexivity. }
  rewrite (decide_False (P := 0 < p)) by lia.
  rewrite (decide_True (P := p < 0)) by lia.
  cbn [rbind String.concat]. rewrite ?append_empty_l.
  rewrite (decide_True (P := "" = "")) by reflexivity.
  destruct (decide (p = -1)) as [->|H4].
  - rewrite (decide_False (P := s = "")) by exact Hne. reflexivity.
  - rewrite (decide_False (P := s +:+ "**" +:+ pretty (Z.abs p) = ""))
      by (apply append_nonempty; exact Hne).
    reflexivity.
Qed.


Lemma dict_get_app_Some {K V : Type} (eqb : K -> K -> bool) (k : K)
  (d d' : dict K V) (v : V) :
  dict_get eqb k d = Some v -> dict_get eqb k (d ++ d') = Some v.
Proof.
  induction d as [|[k0 v0] d IH]; simpl; [discriminate|].
  destruct (eqb k0 k); auto.
Qed.

(** A product in a system whose complex units carry no name: the result
    carries none, it is the entry of the table under its key, and the
    entries that were there stay. *)
Lemma mul_unnamed (st : UnitSystem) (a b : Unit) :
  wf st -> complex_units_unnamed st ->
  allocated st a -> allocated st b ->
  _is_multiplicative a = true -> _is_multiplicative b = true ->
  exists j st1,
    __mul__ a b st = (Ok (ComplexUnit j None (merged a b 1) None), st1) /\
    wf st1 /\ complex_units_unnamed st1 /\
    (forall x, allocated st x -> allocated st1 x) /\
    dict_get py_eqb (lookup_key (merged a b 1) None) (__complex_units__ st1)
    = Some (ComplexUnit j None (merged a b 1) None) /\
    (forall k v, dict_get py_eqb k (__complex_units__ st) = Some v ->
                 dict_get py_eqb k (__complex_units__ st1) = Some v).
Proof.
  intros Hwf Hun Ha Hb Hma Hmb.
  destruct (merged_built st a b 1 Hwf Ha Hb Hma Hmb)
    as (j & nm & st1 & E & Hwf1 & Hmono & Hal).
  rewrite mul_merged. revert E Hal. unfold ComplexUnit___new__.
  destruct (dict_get py_eqb (lookup_key (merged a b 1) None)
              (__complex_units__ st)) as [d|] eqn:Hget.
  - intros [= -> <-] Hal.
    assert (nm = None) as -> by exact (Hun _ Hal eq_refl).
    exists j, st. auto 10.
  - destruct (forallb _ _); [|discriminate].
    intros [= <- <- <-] Hal. eexists (fresh_id st), _.
    split; [reflexivity|]. split; [exact Hwf1|]. split; [|split; [exact Hmono|split]].
    + intros u Hu Hc. unfold allocated in Hu. simpl in Hu.
      apply lookup_app_Some in Hu as [Hu|[_ Hu]]; [exact (Hun u Hu Hc)|].
      apply list_lookup_singleton_Some in Hu as [_ <-]. reflexivity.
    + simpl. apply dict_get_set_same. apply py_eqb_refl.
    + intros k v Hk. simpl. rewrite (dict_set_miss _ _ _ _ Hget).
      apply dict_get_app_Some. exact Hk.
Qed.


Lemma ComplexUnit_new_succeeds (st : UnitSystem) (cs : list (Unit * Z)) :
  wf st -> Forall (allocated st) (map fst cs) ->
  Forall (fun c => _is_multiplicative c.1 = true) cs ->
  exists j nm st1,
    ComplexUnit___new__ (FromComponents cs) None st
    = (Ok (ComplexUnit j nm cs None), st1) /\
    wf st1 /\ (forall x, allocated st x -> allocated st1 x) /\
    allocated st1 (ComplexUnit j nm cs None).
Proof.
  intros Hwf Hal Hm.
  destruct (ComplexUnit___new__ (FromComponents cs) None st) as [r st1] eqn:E.
  pose proof (ComplexUnit_new_components cs None st st1 r Hwf Hal E)
    as (Hwf1 & Hmono & Hok & Herr & _).
  destruct r as [u|e].
  - destruct (Hok u eq_refl) as (Hu & j & nm & ->). exists j, nm, st1. auto.
  - destruct (Herr e eq_refl) as (_ & _ & H). contradiction.
Qed.

(** X22.  Powers of powers.  For a primary or complex unit [a] of a
    well-formed system and any exponents [m] and [n], [(a ** m) ** n] is
    built, and [a ** (m * n)] then returns that same object and leaves the
    system as it is.  (For a derived unit the law fails, since its power
    ignores the exponent.) *)
Theorem pow_of_pow_is_pow_of_product (st : UnitSystem) (a : Unit) (m n : Z) :
  wf st -> allocated st a ->
  class_of a = cPrimaryUnit \/ class_of a = cComplexUnit ->
  exists am st1 r st2,
    __pow__ a m st = (Ok am, st1) /\ __pow__ am n st1 = (Ok r, st2) /\
    __pow__ a (m * n) st2 = (Ok r, st2).
Proof.
  intros Hwf Ha Hc.
  pose proof (allocated_references st a Hwf Ha) as Hr.
  pose proof (allocated_built st a Hwf Ha) as Hb.
  destruct a as [i nm d| | | |i nm cs sc];
    try (destruct Hc as [Hc|Hc]; discriminate Hc).
  - set (a := PrimaryUnit i nm d) in *.
    destruct (ComplexUnit_new_succeeds st [(a, m)] Hwf)
      as (j1 & n1 & st1 & E1 & Hwf1 & Hmono1 & Hal1);
      [constructor; [exact Ha|constructor]|repeat constructor|].
    destruct (ComplexUnit_new_succeeds st1 [(a, m * n)] Hwf1)
      as (j2 & n2 & st2 & E2 & _);
      [constructor; [exact (Hmono1 _ Ha)|constructor]|repeat constructor|].
    eexists _, st1, _, st2. split; [exact E1|]. split; [exact E2|].
    exact (ComplexUnit_interned _ None None st1 st2 _ E2).
  - simpl in Hr, Hb.
    assert (Hcs : forall (st' : UnitSystem) (k : Z),
              (forall x, allocated st x -> allocated st' x) ->
              Forall (allocated st')
                (map fst (map (fun '(u, p) => (u, p * k)) cs)) /\
              Forall (fun c => _is_multiplicative c.1 = true)
                (map (fun '(u, p) => (u, p * k)) cs)).
    { intros st' k Hmono. split.
      - rewrite map_map.
        rewrite (map_ext _ fst) by (intros [u p]; reflexivity).
        eapply Forall_impl; [exact Hr|]. exact Hmono.
      - apply Forall_map. eapply Forall_impl; [exact Hb|].
        intros [u p] H. exact H. }
    destruct (Hcs st m (fun x H => H)) as [Ham Hmm].
    destruct (ComplexUnit_new_succeeds st _ Hwf Ham Hmm)
      as (j1 & n1 & st1 & E1 & Hwf1 & Hmono1 & Hal1).
    destruct (Hcs st1 (m * n) Hmono1) as [Hamn Hmmn].
    destruct (ComplexUnit_new_succeeds st1 _ Hwf1 Hamn Hmmn)
      as (j2 & n2 & st2 & E2 & _).
    assert (Hmap : map (fun '(u, p) => (u, p * n))
                     (map (fun '(u, p) => (u, p * m)) cs)
                   = map (fun '(u, p) => (u, p * (m * n))) cs).
    { rewrite map_map. apply map_ext. intros [u p]. f_equal. ring. }
    eexists _, st1, _, st2. split; [exact E1|].
    cbn [__pow__]. unfold ComplexUnit___pow__. rewrite Hmap.
    split; [exact E2|].
    exact (ComplexUnit_interned _ None None st1 st2 _ E2).
Qed.

End OperatorFacts.

(** * Conversion within one dimension *)

Section AffineConversion.
Context {DA : DimensionAlgebra} {DS : DecimalStr}.

Lemma convert_same_dimension (fuel : nat) (self to : Unit) (v : NUMBER)
  (d : Dimension) (st : UnitSystem) :
  is_ to self = false -> dimension self = Ok d -> dimension to = Ok d ->
  convert fuel self v to st = (_do_convert self v to, st).
Proof.
  intros His Hs Ht. rewrite convert_unfold, His. unfold bind, lift.
  rewrite Hs, Ht. case_decide; [reflexivity|contradiction].
Qed.

Lemma unit_of_dimension (i : nat) (n : option string) (d : Dimension) (u : Unit) :
  unit_of (PrimaryUnit i n d) u -> dimension u = Ok d.
Proof.
  intros [->|H]; [reflexivity|].
  destruct u as [|j m q r|j m q r o|j m ou|]; simpl in H; try contradiction;
    try (subst q; reflexivity).
  destruct ou; try contradiction. subst. reflexivity.
Qed.

Lemma unit_of_ratio (p u : Unit) :
  class_of p = cPrimaryUnit -> unit_of p u -> ratio u = Ok (ratio_value u).
Proof.
  intros Hp [->|H].
  - destruct p; try discriminate. reflexivity.
  - destruct u as [| | |j m ou|]; simpl in H; try contradiction; try reflexivity.
    destruct ou; try contradiction. reflexivity.
Qed.

(** Units of one system are the same object when they have the same
    identity. *)
Lemma distinct_objects (st : UnitSystem) (u w : Unit) :
  allocated st u -> allocated st w -> u <> w -> is_ u w = false.
Proof.
  intros Hu Hw Hne. apply is_false_iff. intros E. apply Hne.
  exact (allocated_inj st u w Hu Hw E).
Qed.

(** From the primary unit to a unit over it. *)
Lemma primary_to_derived (p b : Unit) (x : Decimal) :
  class_of p = cPrimaryUnit -> derived_from p b -> ratio_value b <> 0%Qc ->
  _do_convert p (PyDecimal x) b
  = Ok (PyDecimal (x / ratio_value b - offset_value b)%Qc).
Proof.
  intros Hp Hb Hr. destruct p; try discriminate.
  destruct b as [|j m q r|j m q r o|j m ou|]; simpl in Hb; try contradiction.
  - unfold ratio_value in Hr. cbn in Hr. cbn [_do_convert ratio rbind].
    unfold cast_like. cbn [type_of num_make].
    rewrite num_div_Decimal by exact Hr.
    unfold ratio_value, offset_value. cbn. f_equal. f_equal. ring.
  - unfold ratio_value in Hr. cbn in Hr. cbn [_do_convert].
    unfold cast_like. cbn [type_of num_make].
    rewrite num_div_Decimal by exact Hr. reflexivity.
  - destruct ou as [| |j' m' q r o| |]; try contradiction.
    unfold ratio_value in Hr. cbn in Hr. cbn [_do_convert ratio rbind].
    unfold cast_like. cbn [type_of num_make].
    rewrite num_div_Decimal by exact Hr.
    unfold ratio_value, offset_value. cbn. f_equal. f_equal. ring.
Qed.

(** From a unit over the primary unit to the value in the primary unit,
    and on from there. *)
Lemma derived_to_primary (p a b : Unit) (v : Decimal) :
  derived_from p a ->
  _do_convert a (PyDecimal v) b
  = if is_ b p then Ok (PyDecimal ((v + offset_value a) * ratio_value a)%Qc)
    else _do_convert p (PyDecimal ((v + offset_value a) * ratio_value a)%Qc) b.
Proof.
  intros Ha.
  destruct a as [|j m q r|j m q r o|j m ou|]; simpl in Ha; try contradiction.
  - subst q. cbn [_do_convert]. unfold cast_like. cbn [type_of num_make num_mul rbind].
    unfold ratio_value, offset_value. cbn [ratio].
    replace ((v + 0) * r)%Qc with (v * r)%Qc by ring.
    destruct (is_ b p); reflexivity.
  - subst q. cbn [_do_convert]. unfold cast_like.
    cbn [type_of num_make num_mul num_add rbind].
    unfold ratio_value, offset_value. cbn [ratio].
    destruct (is_ b p); reflexivity.
  - destruct ou as [| |j' m' q r o| |]; try contradiction. subst q.
    cbn [_do_convert]. unfold cast_like. cbn [type_of num_make num_mul rbind].
    unfold ratio_value, offset_value. cbn [ratio].
    replace ((v + 0) * r)%Qc with (v * r)%Qc by ring.
    destruct (is_ b p); reflexivity.
Qed.

Lemma derived_is_not_primary (p u : Unit) :
  class_of p = cPrimaryUnit -> derived_from p u -> u <> p.
Proof.
  intros Hp Hu ->. destruct p; try discriminate. exact Hu.
Qed.

(** The affine map every conversion between the units of a primary unit
    computes on a [Decimal]. *)
Lemma do_convert_affine (st : UnitSystem) (p a b : Unit) (v : Decimal) :
  class_of p = cPrimaryUnit ->
  allocated st p -> allocated st a -> allocated st b ->
  unit_of p a -> unit_of p b -> a <> b -> ratio_value b <> 0%Qc ->
  _do_convert a (PyDecimal v) b
  = Ok (PyDecimal ((v + offset_value a) * ratio_value a / ratio_value b
                   - offset_value b)%Qc).
Proof.
  intros Hp Hsp Hsa Hsb Ha Hb Hne Hr.
  assert (Hp1 : ratio_value p = 1%Qc /\ offset_value p = 0%Qc)
    by (destruct p; try discriminate; split; reflexivity).
  destruct Hp1 as [Hrp Hop].
  destruct Ha as [->|Ha].
  - destruct Hb as [->|Hb]; [contradiction|].
    rewrite (primary_to_derived p b v Hp Hb Hr), Hrp, Hop.
    f_equal. f_equal. field. exact Hr.
  - rewrite (derived_to_primary p a b v Ha).
    destruct Hb as [->|Hb].
    + rewrite is_refl, Hrp, Hop. f_equal. f_equal. field. discriminate.
    + rewrite (distinct_objects st b p Hsb Hsp (derived_is_not_primary p b Hp Hb)).
      rewrite (primary_to_derived p b _ Hp Hb Hr). reflexivity.
Qed.

(** Between two different units of one primary unit [convert] goes
    straight to [_do_convert], whatever the number. *)
Lemma convert_is_do_convert (fuel : nat) (st : UnitSystem) (p a b : Unit)
  (v : NUMBER) :
  class_of p = cPrimaryUnit ->
  allocated st a -> allocated st b ->
  unit_of p a -> unit_of p b -> a <> b ->
  convert fuel a v b st = (_do_convert a v b, st).
Proof.
  intros Hp Hsa Hsb Ha Hb Hne.
  destruct p as [k n d| | | |]; try discriminate.
  apply (convert_same_dimension fuel a b v d st).
  - apply (distinct_objects st); auto.
  - eapply unit_of_dimension; eauto.
  - eapply unit_of_dimension; eauto.
Qed.






End AffineConversion.

(** * Values that are not decimals, and complex targets *)

Section Truncation.
Context {DA : DimensionAlgebra} {DS : DecimalStr}.

Lemma Decimal_of_Z_zero (t : Z) : Decimal_of_Z t = 0%Qc <-> t = 0.
Proof.
  split; [|intros ->; reflexivity].
  intros H. apply (f_equal this) in H. unfold Decimal_of_Z in H. simpl in H.
  unfold Qred in H. simpl in H.
  destruct (Z.ggcd t 1) as [g [aa bb]] eqn:Eg.
  pose proof (Z.ggcd_correct_divisors t 1) as Hd. rewrite Eg in Hd.
  destruct Hd as [Ht _]. simpl in H. injection H as Haa _. subst aa. lia.
Qed.

(** A ratio strictly between minus one and one truncates to zero. *)
Lemma int_of_Decimal_small (r : Decimal) :
  (-1 < r)%Qc -> (r < 1)%Qc -> int_of_Decimal r = 0.
Proof.
  unfold Qclt, Qlt, int_of_Decimal. destruct r as [[n d] Hc]. simpl.
  intros H1 H2. apply Z.quot_small_iff; lia.
Qed.


Lemma num_mul_cast (v : NUMBER) (q : Decimal) :
  exists w, num_mul v (cast_like v q) = Ok w /\ type_of w = type_of v.
Proof. destruct v; eexists; split; reflexivity. Qed.

Lemma num_add_cast (v : NUMBER) (q : Decimal) :
  exists w, num_add v (cast_like v q) = Ok w /\ type_of w = type_of v.
Proof. destruct v; eexists; split; reflexivity. Qed.

Lemma cast_like_type (v w : NUMBER) (q : Decimal) :
  type_of w = type_of v -> cast_like v q = cast_like w q.
Proof. unfold cast_like. intros ->. reflexivity. Qed.


End Truncation.

(** * The properties at the example systems *)

Section MoreExamples.
#[local] Existing Instance exponent_dims.
#[local] Existing Instance fraction_str.

Lemma lab_wf : wf lab.
Proof.
  destruct world_wf as [W _].
  destruct world_allocated as (Am & Ak & Ac & Akm & _).
  pose (s1 := snd (OffsetDerivedUnit___new__ kelvin (Q2Qc (5 # 9))
                     (Q2Qc (45967 # 100)) (Some "fahrenheit") world)).
  assert (E1 : OffsetDerivedUnit___new__ kelvin (Q2Qc (5 # 9))
                 (Q2Qc (45967 # 100)) (Some "fahrenheit") world
               = (Ok fahrenheit, s1)) by (vm_compute; reflexivity).
  pose proof (OffsetDerivedUnit_new_wf _ _ _ _ _ _ _ W Ak E1) as (W1 & M1 & A1).
  pose (s2 := snd (diff celsius s1)).
  assert (E2 : diff celsius s1 = (Ok celsius_diff, s2)) by (vm_compute; reflexivity).
  pose proof (DiffDerivedUnit_new_wf _ _ _ _ _ W1 (M1 _ Ac) E2) as (W2 & M2 & A2).
  pose (s3 := snd (diff fahrenheit s2)).
  assert (E3 : diff fahrenheit s2 = (Ok fahrenheit_diff, s3))
    by (vm_compute; reflexivity).
  pose proof (DiffDerivedUnit_new_wf _ _ _ _ _ W2 (M2 _ (A1 _ eq_refl)) E3)
    as (W3 & M3 & A3).
  pose (s4 := snd (DerivedUnit___new__ (AUnit metre) (Q2Qc (1 # 1000))
                     (Some "millimetre") s3)).
  assert (E4 : DerivedUnit___new__ (AUnit metre) (Q2Qc (1 # 1000))
                 (Some "millimetre") s3 = (Ok millimetre, s4))
    by (vm_compute; reflexivity).
  pose proof (DerivedUnit_new_wf (AUnit metre) _ _ _ _ _ W3
                (M3 _ (M2 _ (M1 _ Am))) E4) as (W4 & M4 & A4).
  assert (E5 : ComplexUnit___new__ (FromComponents [(kilometre, 1)]) None s4
               = (Ok kilometre_alone, lab)) by (vm_compute; reflexivity).
  eapply ComplexUnit_new_components; [exact W4| |exact E5].
  constructor; [|constructor]. apply M4, M3, M2, M1. exact Akm.
Qed.

Lemma lab_allocated :
  allocated lab metre /\ allocated lab kelvin /\ allocated lab celsius /\
  allocated lab kilometre /\ allocated lab fahrenheit /\
  allocated lab celsius_diff /\ allocated lab fahrenheit_diff /\
  allocated lab millimetre /\ allocated lab kilometre_alone.
Proof. repeat split; vm_compute; reflexivity. Qed.

Lemma world_primary_registered : primary_registered world.
Proof.
  intros i n d H. unfold allocated in H.
  change (objects world) with [metre; kelvin; celsius; kilometre] in H.
  destruct i as [|[|[|[|i]]]]; simpl in H; try discriminate;
    injection H as <- <-; vm_compute; reflexivity.
Qed.

(** X1 at the dimension of length in [world]: the call returns the unit
    that is there, and so does a call with another name. *)
Lemma PrimaryUnit_new_one_per_dimension_witness :
  wf world /\
  exists u st1,
    PrimaryUnit___new__ (Some "metre") length_ world = (Ok u, st1) /\
    PrimaryUnit___new__ (Some "meter") length_ st1 = (Ok u, st1) /\
    dimension u = Ok length_ /\ allocated st1 u /\ wf st1.
Proof.
  split; [exact (proj1 world_wf)|].
  exact (PrimaryUnit_new_one_per_dimension world (Some "metre") (Some "meter")
           length_ (proj1 world_wf)).
Defined.





(** X6 at [world]. *)
Lemma one_primary_unit_per_dimension_witness :
  primary_registered world /\
  (forall i j n m d,
     allocated world (PrimaryUnit i n d) ->
     allocated world (PrimaryUnit j m d) ->
     PrimaryUnit i n d = PrimaryUnit j m d) /\
  (forall name d r st',
     PrimaryUnit___new__ name d world = (r, st') -> primary_registered st').
Proof.
  split; [exact world_primary_registered|].
  split; [exact (proj1 (one_primary_unit_per_dimension world
                          world_primary_registered))|].
  exact (proj1 (proj2 (one_primary_unit_per_dimension world
                         world_primary_registered))).
Defined.




Lemma metre_is_not_kelvin : metre <> kelvin.
Proof. discriminate. Qed.


(** X11 at [metre]. *)
Lemma mul_self_is_pow_two_witness :
  wf world /\ allocated world metre /\
  class_of metre <> cComplexUnit /\ class_of metre <> cOffsetDerivedUnit /\
  exists i nm st1,
    __mul__ metre metre world = (Ok (ComplexUnit i nm [(metre, 2)] None), st1) /\
    __pow__ metre 2 st1 = (Ok (ComplexUnit i nm [(metre, 2)] None), st1).
Proof.
  assert (Hm : allocated world metre) by (vm_compute; reflexivity).
  assert (H1 : class_of metre <> cComplexUnit) by discriminate.
  assert (H2 : class_of metre <> cOffsetDerivedUnit) by discriminate.
  split; [exact (proj1 world_wf)|]. split; [exact Hm|].
  split; [exact H1|]. split; [exact H2|].
  exact (mul_self_is_pow_two world metre (proj1 world_wf) Hm H1 H2).
Defined.

(** X12 at [kilometre]. *)
Lemma truediv_self_keeps_zero_exponent_witness :
  wf world /\ allocated world kilometre /\
  _is_multiplicative kilometre = true /\
  _to_components kilometre 1 = [(kilometre, 1)] /\
  ratio kilometre = Ok (Q2Qc 1000) /\
  exists i nm st1,
    __truediv__ kilometre kilometre world
    = (Ok (ComplexUnit i nm [(kilometre, 0)] None), st1) /\
    _build_name (ComplexUnit i nm [(kilometre, 0)] None) = Ok (Some "1") /\
    ratio (ComplexUnit i nm [(kilometre, 0)] None)
    = if decide (Q2Qc 1000 = 0%Qc) then Raise ArithmeticError else Ok 1%Qc.
Proof.
  assert (Ha : allocated world kilometre) by (vm_compute; reflexivity).
  split; [exact (proj1 world_wf)|]. split; [exact Ha|].
  split; [reflexivity|]. split; [reflexivity|]. split; [reflexivity|].
  exact (truediv_self_keeps_zero_exponent world kilometre (Q2Qc 1000)
           (proj1 world_wf) Ha eq_refl eq_refl eq_refl).
Defined.

Lemma metre_name_nonempty : "metre" <> "".
Proof. discriminate. Qed.

Lemma kelvin_name_nonempty : "kelvin" <> "".
Proof. discriminate. Qed.

(** X13 at the cube of [metre]. *)
Lemma build_name_of_a_power_witness :
  Unit___str__ metre = Ok "metre" /\ "metre" <> "" /\
  _build_name (ComplexUnit 9 None [(metre, 3)] None)
  = Ok (Some (if decide (3 = 1) then "metre"
              else if decide (1 < 3) then "metre" +:+ "**" +:+ pretty 3
              else if decide (3 = 0) then "1"
              else if decide (3 = -1) then "1/" +:+ "metre"
              else "1/" +:+ "metre" +:+ "**" +:+ pretty (Z.abs 3))).
Proof.
  split; [reflexivity|]. split; [exact metre_name_nonempty|].
  exact (build_name_of_a_power 9 None metre 3 "metre" eq_refl
           metre_name_nonempty).
Defined.


Lemma fahrenheit_ratio_nonzero : ratio_value fahrenheit <> 0%Qc.
Proof. discriminate. Qed.

Lemma celsius_ratio_nonzero : ratio_value celsius <> 0%Qc.
Proof. discriminate. Qed.

Lemma kelvin_ratio_nonzero : ratio_value kelvin <> 0%Qc.
Proof. discriminate. Qed.

Lemma celsius_is_not_fahrenheit : celsius <> fahrenheit.
Proof. discriminate. Qed.

Lemma celsius_is_not_kelvin : celsius <> kelvin.
Proof. discriminate. Qed.

Lemma kelvin_is_not_fahrenheit : kelvin <> fahrenheit.
Proof. discriminate. Qed.

(** X22 at [metre], the exponents two and three. *)
Lemma pow_of_pow_is_pow_of_product_witness :
  wf world /\ allocated world metre /\
  (class_of metre = cPrimaryUnit \/ class_of metre = cComplexUnit) /\
  exists am st1 r st2,
    __pow__ metre 2 world = (Ok am, st1) /\ __pow__ am 3 st1 = (Ok r, st2) /\
    __pow__ metre (2 * 3) st2 = (Ok r, st2).
Proof.
  assert (Hm : allocated world metre) by (vm_compute; reflexivity).
  split; [exact (proj1 world_wf)|]. split; [exact Hm|].
  split; [left; reflexivity|].
  exact (pow_of_pow_is_pow_of_product world metre 2 3 (proj1 world_wf) Hm
           (or_introl eq_refl)).
Defined.

Lemma world_unnamed : complex_units_unnamed world.
Proof.
  intros u H Hc. unfold allocated in H.
  change (objects world) with [metre; kelvin; celsius; kilometre] in H.
  destruct (py_id u) as [|[|[|[|i]]]]; simpl in H; try discriminate;
    injection H as <-; discriminate Hc.
Qed.

Lemma kelvin_is_not_kilometre : kelvin <> kilometre.
Proof. discriminate. Qed.

Lemma metre_is_not_kilometre : metre <> kilometre.
Proof. discriminate. Qed.






Lemma zero_is_not_seven : 0%nat <> 7%nat.
Proof. discriminate. Qed.


Lemma millimetre_ratio_nonzero : ratio_value millimetre <> 0%Qc.
Proof. discriminate. Qed.


End MoreExamples.
